(** * Verification of the vector-search edge function

    Shallow embedding of [supabase/functions/vector-search/index.ts]:
    the request handler served by [Deno.serve], the context-assembly
    loop, the query normalisation and the error boundary. *)

From Stdlib Require Import ZArith NArith List String Ascii Bool Lia.
From Stdlib Require Import Floats.PrimFloat.
From stdpp Require Import base gmap strings.
Import ListNotations.

#[local] Set Warnings "-register-all".
Local Open Scope N_scope.
Local Open Scope list_scope.

(** ** JavaScript strings

    A JavaScript string is a sequence of UTF-16 code units. *)

Abbreviation jsstring := (list N).

Module JS.

(** Code units of an ASCII literal of the source. *)
Definition js (s : string) : jsstring :=
  List.map N_of_ascii (list_ascii_of_string s).

Definition LF : N := 10.
Definition SP : N := 32.
Definition QUOTE : N := 34.

(** ECMAScript [LineTerminator]: LF, CR, LS, PS. *)
Definition isLineTerminator (c : N) : bool :=
  (c =? 10) || (c =? 13) || (c =? 8232) || (c =? 8233).

(** ECMAScript [WhiteSpace]: TAB, VT, FF, ZWNBSP and the code points of
    category Zs. *)
Definition isWhiteSpace (c : N) : bool :=
  (c =? 9) || (c =? 11) || (c =? 12) || (c =? 32) || (c =? 160)
  || (c =? 5760) || ((8192 <=? c) && (c <=? 8202))
  || (c =? 8239) || (c =? 8287) || (c =? 12288) || (c =? 65279).

(** What [String.prototype.trim] strips and what the regular expression
    class [\s] matches. *)
Definition isSpace (c : N) : bool := isWhiteSpace c || isLineTerminator c.

Fixpoint dropWhile {A} (p : A -> bool) (l : list A) : list A :=
  match l with
  | [] => []
  | x :: l' => if p x then dropWhile p l' else l
  end.

Definition trimStart (s : jsstring) : jsstring := dropWhile isSpace s.
Definition trimEnd (s : jsstring) : jsstring := rev (dropWhile isSpace (rev s)).

(** [String.prototype.trim]. *)
Definition trim (s : jsstring) : jsstring := trimEnd (trimStart s).

(** [===] on strings *)
Fixpoint eqb (s t : jsstring) : bool :=
  match s, t with
  | [], [] => true
  | a :: s', b :: t' => (a =? b) && eqb s' t'
  | _, _ => false
  end.

(** [startsWith p s]: is [p] a prefix of [s]. *)
Fixpoint startsWith (p s : jsstring) : bool :=
  match p, s with
  | [], _ => true
  | a :: p', b :: s' => (a =? b) && startsWith p' s'
  | _ :: _, [] => false
  end.

(** Scan for [String.prototype.replaceAll] with a non-empty search
    string: [skip] code units of the occurrence found last are still to
    be passed over. *)
Fixpoint replaceAll_scan (pat rep : jsstring) (skip : nat) (s : jsstring)
  : jsstring :=
  match s with
  | [] => []
  | c :: s' =>
      match skip with
      | S k => replaceAll_scan pat rep k s'
      | O =>
          if startsWith pat s
          then rep ++ replaceAll_scan pat rep (Nat.pred (length pat)) s'
          else c :: replaceAll_scan pat rep O s'
      end
  end.

(** [String.prototype.replaceAll] with string arguments.  The empty
    search string matches before every code unit and at the end. *)
Definition replaceAll (pat rep s : jsstring) : jsstring :=
  match pat with
  | [] => rep ++ flat_map (fun c => c :: rep) s
  | _ :: _ => replaceAll_scan pat rep O s
  end.

(** [String.prototype.includes]. *)
Fixpoint includes (s pat : jsstring) : bool :=
  startsWith pat s ||
  match s with
  | [] => false
  | _ :: s' => includes s' pat
  end.

(** Truthiness of a string: only the empty string is falsy. *)
Definition truthy_string (s : jsstring) : bool :=
  match s with [] => false | _ :: _ => true end.

End JS.

Import JS.

(** [const sanitizedQuery = query.trim().replaceAll("\n", " ")] *)
Definition sanitize (query : jsstring) : jsstring :=
  replaceAll [LF] [SP] (trim query).


(** ** JavaScript values

    Values exchanged with the collaborators: JSON data, plus [undefined]
    for a missing property.  Numbers are IEEE 754 doubles. *)

Inductive JsVal : Type :=
| VUndefined
| VNull
| VBool (b : bool)
| VNum (x : float)
| VStr (s : jsstring)
| VArr (items : list JsVal)
| VObj (fields : list (jsstring * JsVal)).

(** [ToBoolean]: [undefined], [null], [false], [0], [-0], [NaN] and the
    empty string are falsy, everything else is truthy. *)
Definition truthy (v : JsVal) : bool :=
  match v with
  | VUndefined | VNull => false
  | VBool b => b
  | VNum x => negb (PrimFloat.eqb x 0%float || PrimFloat.is_nan x)
  | VStr s => truthy_string s
  | VArr _ | VObj _ => true
  end.

(** Own-property read [o.k] on an object value ([undefined] when absent). *)
Fixpoint lookup_field (k : jsstring) (fields : list (jsstring * JsVal)) : JsVal :=
  match fields with
  | [] => VUndefined
  | (k', v) :: rest => if JS.eqb k k' then v else lookup_field k rest
  end.

Definition prop (k : string) (v : JsVal) : JsVal :=
  match v with
  | VObj fields => lookup_field (js k) fields
  | _ => VUndefined
  end.

(** ** The response object of the embedding call *)

Record EmbeddingItem : Type := mkEmbeddingItem {
  embedding : list float
}.

(** The object that [openai.createEmbedding] resolves to: the response
    object of the HTTP client, with its request, configuration and
    headers.  The handler reads [embeddingResponse.status] and
    [embeddingResponse.data.data] from it, and hands the whole object to
    [JSON.stringify] when it logs a failure; [embedding_json] is what
    [JSON.stringify] makes of the object: its JSON text, kept as the
    value it denotes, or nothing when the object does not serialise (it
    holds a cycle) and [JSON.stringify] throws a [TypeError]. *)
Record EmbeddingResponse : Type := mkEmbeddingResponse {
  embedding_status : float;
  embedding_data : list EmbeddingItem;
  embedding_json : option JsVal
}.

(** What an [ApplicationError] is given as its data: JSON data (the
    error of the store, the parsed error body of the completion
    service), or the response object of the embedding call. *)
Variant ErrorData : Type :=
| JsonData (value : JsVal)
| ResponseObject (response : EmbeddingResponse).

(** ** Errors *)

(** Modelled from the spec: the classes of [_utils/errors.ts], which the
    handler imports.  A [UserError] carries a message and an optional
    structured payload surfaced to the caller ([undefined] when the
    constructor is given none); an [ApplicationError]
    carries a message and diagnostic data.  Everything else that can be
    thrown (a rejected promise of a collaborator, a [TypeError] of the
    runtime) is neither. *)
Inductive JsError : Type :=
| UserError (message : jsstring) (data : JsVal)
| ApplicationError (message : jsstring) (data : ErrorData)
| Rejection (reason : JsVal)
| TypeError.

Inductive Result (A : Type) : Type :=
| Ok (a : A)
| Throw (e : JsError).
Arguments Ok {A} a.
Arguments Throw {A} e.

(** [JSON.stringify(err.data)]: the JSON text, kept as the value it
    denotes; JSON data always has one, the response object of the
    embedding call may not, and then a [TypeError] is thrown. *)
Definition JSON_stringify (data : ErrorData) : Result JsVal :=
  match data with
  | JsonData value => Ok value
  | ResponseObject response =>
      match embedding_json response with
      | Some text => Ok text
      | None => Throw TypeError
      end
  end.

(** ** HTTP messages *)

(** A plain object used as a header bag, [{ name: value, ... }]. *)
Abbreviation HeaderInit := (list (string * jsstring)).

Definition lower_ascii (a : ascii) : ascii :=
  let n := nat_of_ascii a in
  if ((65 <=? n) && (n <=? 90))%nat then ascii_of_nat (n + 32) else a.

Fixpoint lowercase (s : string) : string :=
  match s with
  | EmptyString => EmptyString
  | String a s' => String (lower_ascii a) (lowercase s')
  end.

(** [Headers.prototype.append]: names are case-insensitive and are kept
    in lower case; a value appended to a name already there is joined to
    the earlier one. *)
Definition Headers_append (h : gmap string jsstring) (name : string) (value : jsstring)
  : gmap string jsstring :=
  match h !! lowercase name with
  | Some earlier => <[lowercase name := earlier ++ js ", " ++ value]> h
  | None => <[lowercase name := value]> h
  end.

(** [new Headers(init)]: every entry of the init object is appended. *)
Definition Headers_of (init : HeaderInit) : gmap string jsstring :=
  fold_left (fun h '(k, v) => Headers_append h k v) init ∅.

Definition Headers_get (name : string) (h : gmap string jsstring) : option jsstring :=
  h !! lowercase name.

(** The body stream of a [fetch] response: an opaque handle, never read
    by the handler. *)
Variant ReadableStream : Type := StreamHandle (id : N).

(** A response body: a text, the JSON text of a value, or a stream
    passed on. *)
Variant Body : Type :=
| BodyText (text : jsstring)
| BodyJson (value : JsVal)
| BodyStream (stream : ReadableStream).

Record Response : Type := mkResponse {
  status : Z;
  headers : gmap string jsstring;
  body : Body
}.

(** The content type a body brings with it when the init names none. *)
Definition default_content_type (b : Body) : option jsstring :=
  match b with
  | BodyText _ => Some (js "text/plain;charset=UTF-8")
  | BodyJson _ => Some (js "application/json")
  | BodyStream _ => None
  end.

Definition with_content_type (b : Body) (h : gmap string jsstring)
  : gmap string jsstring :=
  match h !! "content-type"%string, default_content_type b with
  | None, Some t => <["content-type"%string := t]> h
  | _, _ => h
  end.

(** [new Response(body, { headers })]: the status defaults to 200. *)
Definition Response_new (b : Body) (init_headers : HeaderInit) : Response :=
  {| status := 200;
     headers := with_content_type b (Headers_of init_headers);
     body := b |}.

(** [Response.json(data, { status, headers })]: the body is the JSON text
    of [data], and the content type is [application/json] unless the init
    names one. *)
Definition Response_json (data : JsVal) (init_status : Z) (init_headers : HeaderInit)
  : Response :=
  {| status := init_status;
     headers := with_content_type (BodyJson data) (Headers_of init_headers);
     body := BodyJson data |}.

Record Request : Type := mkRequest {
  method : string;
  (** the decoded name/value pairs of [new URL(req.url).searchParams] *)
  searchParams : list (string * jsstring)
}.

(** [URLSearchParams.prototype.get]: the first value of that name, or
    [null]. *)
Fixpoint searchParams_get (name : string) (ps : list (string * jsstring))
  : option jsstring :=
  match ps with
  | [] => None
  | (k, v) :: rest => if String.eqb k name then Some v else searchParams_get name rest
  end.

(** ** Collaborators

    The shapes the handler reads from the OpenAI client, the Supabase
    client and [fetch]. *)

Record ModerationResult : Type := mkModerationResult {
  flagged : bool;
  categories : JsVal
}.

(** [moderationResponse.data.results] *)
Record ModerationResponse : Type := mkModerationResponse {
  moderation_results : list ModerationResult
}.

Record PageSection : Type := mkPageSection {
  content : JsVal
}.

(** A page section whose content is the string [d]. *)
Definition section_of (d : jsstring) : PageSection := {| content := VStr d |}.

(** [{ error, data }] of [supabaseClient.rpc]; [data] is [null] or the
    rows. *)
Record RpcResult : Type := mkRpcResult {
  rpc_error : JsVal;
  rpc_data : option (list PageSection)
}.

(** The init of a [fetch]; the body is the JSON text of a value,
    [JSON.stringify(value)], kept as that value. *)
Record FetchInit : Type := mkFetchInit {
  fetch_headers : HeaderInit;
  fetch_method : string;
  fetch_body : JsVal
}.

Record FetchResponse : Type := mkFetchResponse {
  ok : bool;
  response_body : ReadableStream
}.

(** A promise that has settled. *)
Variant Settled (X : Type) : Type :=
| Fulfilled (x : X)
| Rejected (reason : JsVal).
Arguments Fulfilled {X} x.
Arguments Rejected {X} reason.

(** What [console.error] is given: the line
    [`${message}: ${JSON.stringify(data)}`], with the JSON text kept as
    the value it denotes, or a thrown value as it is. *)
Variant LogArg : Type :=
| LogLine (message : jsstring) (data : JsVal)
| LogThrown (err : JsError).

(** The calls the handler makes to the outside, with the type of what
    each gives back.  The OpenAI and Supabase clients are created once
    when the module loads; a call names its arguments only. *)
Variant Eff : Type -> Type :=
| createModeration (input : jsstring) : Eff (Settled ModerationResponse)
| createEmbedding (model input : jsstring) : Eff (Settled EmbeddingResponse)
| rpc (fn : jsstring) (args : JsVal) : Eff (Settled RpcResult)
| fetch (url : jsstring) (init : FetchInit) : Eff (Settled FetchResponse)
| response_json (r : FetchResponse) : Eff (Settled JsVal)
| console_error (arg : LogArg) : Eff unit.

(** ** Programs that call out

    A program is a finite tree: a result, or a call and what to do with
    its answer. *)

Inductive Prog (A : Type) : Type :=
| Ret (a : A)
| Vis {X : Type} (e : Eff X) (k : X -> Prog A).
Arguments Ret {A} a.
Arguments Vis {A X} e k.

(** An [async] body: it calls out and either returns or throws. *)
Definition Async (A : Type) : Type := Prog (Result A).

Definition ret {A} (a : A) : Async A := Ret (Ok a).
Definition throw {A} (e : JsError) : Async A := Ret (Throw e).

Fixpoint bind {A B} (p : Async A) (k : A -> Async B) : Async B :=
  match p with
  | Ret (Ok a) => k a
  | Ret (Throw e) => Ret (Throw e)
  | Vis e h => Vis e (fun x => bind (h x) k)
  end.

(** [await] of a collaborator's promise: a rejection is rethrown. *)
Definition await {X} (e : Eff (Settled X)) : Async X :=
  Vis e (fun s => match s with
                  | Fulfilled x => Ret (Ok x)
                  | Rejected reason => Ret (Throw (Rejection reason))
                  end).

Definition lift {A} (r : Result A) : Async A := Ret r.

(** [try { p } catch (err) { h err }]: what the [catch] block throws is
    thrown by the whole. *)
Fixpoint try_catch {A} (p : Async A) (h : JsError -> Async A) : Async A :=
  match p with
  | Ret (Ok a) => Ret (Ok a)
  | Ret (Throw e) => h e
  | Vis e k => Vis e (fun x => try_catch (k x) h)
  end.

(** A call that gives nothing back. *)
Definition perform (e : Eff unit) : Async unit := Vis e (fun _ => Ret (Ok tt)).

Declare Scope async_scope.
Delimit Scope async_scope with async.
Notation "x <- c1 ;; c2" := (bind c1 (fun x => c2))
  (at level 100, c1 at next level, right associativity) : async_scope.

(** One call made, with its arguments. *)
Inductive Call : Type :=
| call {X : Type} (e : Eff X).

(** The outside world: an answer for every call. *)
Definition World : Type := forall X : Type, Eff X -> X.

(** Run a program against a world: the calls made, in order, and the
    result. *)
Fixpoint run {A} (w : World) (p : Prog A) : list Call * A :=
  match p with
  | Ret a => ([], a)
  | Vis e k => let '(t, a) := run w (k (w _ e)) in (call e :: t, a)
  end.

(** A template tag, applied to the cooked strings of a template literal
    and the values of its substitutions. *)
Definition TemplateTag : Type := list jsstring -> list jsstring -> jsstring.

(** ** The handler *)

(** [corsHeaders] *)
Definition corsHeaders : HeaderInit :=
  [("Access-Control-Allow-Origin"%string, js "*");
   ("Access-Control-Allow-Headers"%string,
     js "authorization, x-client-info, apikey, content-type")].

(** [corsStreamingHeaders = { ...corsHeaders, "Content-Type": ... }] *)
Definition corsStreamingHeaders : HeaderInit :=
  corsHeaders ++ [("Content-Type"%string, js "text/event-stream")].

(** The separator put after every section of the context. *)
Definition separator : jsstring := [LF] ++ js "---" ++ [LF].

Local Open Scope async_scope.

Section Handler.

(** [ensureGetEnv] of [_utils/env.ts]: the value of a variable of the
    environment, read once at start-up. *)
Variable ensureGetEnv : string -> jsstring.

(** [tokenizer.encode(s).text] of the GPT-3 tokenizer: the tokens of a
    string. *)
Variable tokenizer_encode : jsstring -> list jsstring.

(** The [codeBlock] and [oneLine] tags of the template library. *)
Variables codeBlock oneLine : TemplateTag.

(** [a || b] on strings *)
Definition or_else (a b : jsstring) : jsstring :=
  if truthy_string a then a else b.

Definition OPENAI_API_KEY : jsstring := ensureGetEnv "OPENAI_API_KEY".
Definition OPENAI_EMBEDDINGS_MODEL : jsstring :=
  or_else (ensureGetEnv "OPENAI_EMBEDDINGS_MODEL") (js "text-embedding-ada-002").
Definition OPENAI_COMPLETIONS_MODEL : jsstring :=
  or_else (ensureGetEnv "OPENAI_COMPLETIONS_MODEL") (js "gpt-3.5-turbo").
Definition OPENAI_COMPLETIONS_ENDPOINT : jsstring :=
  or_else (ensureGetEnv "OPENAI_COMPLETIONS_ENDPOINT")
          (js "https://api.openai.com/v1/chat/completions").

(** [pageSection.content as string || ''] *)
Definition currentDocument_of (pageSection : PageSection) : JsVal :=
  if truthy (content pageSection) then content pageSection else VStr [].

(** The loop over [pageSections], entered with the running
    [tokenCount] and [contextText].  A document that is not a string
    has no [trim] method: the body throws a [TypeError]. *)
Fixpoint context_loop (pageSections : list PageSection)
         (tokenCount : nat) (contextText : jsstring) : Result jsstring :=
  match pageSections with
  | [] => Ok contextText
  | pageSection :: rest =>
      match currentDocument_of pageSection with
      | VStr currentDocument =>
          let currentDocumentInTokens := tokenizer_encode currentDocument in
          let currentDocumentTokenCount := length currentDocumentInTokens in
          let currentDocumentText := trim currentDocument ++ separator in
          let tokenCount := (tokenCount + currentDocumentTokenCount)%nat in
          if (1500 <=? tokenCount)%nat then Ok contextText
          else context_loop rest tokenCount (contextText ++ currentDocumentText)
      | _ => Throw TypeError
      end
  end.

(** The loop entered with [tokenCount = 0] and the empty [contextText]. *)
Definition assemble_context (pageSections : list PageSection) : Result jsstring :=
  context_loop pageSections 0%nat [].

(** The cooked strings of the [oneLine] template. *)
Definition instruction_strings : list jsstring :=
  [ [LF] ++ js "        You are a very enthusiastic support representative who loves"
    ++ [LF] ++ js "        to help people! Given the following sections from the product"
    ++ [LF] ++ js "        documentation, answer the question using only that information,"
    ++ [LF] ++ js "        outputted in markdown format. If you are unsure and the answer"
    ++ [LF] ++ js "        is not explicitly written in the documentation, say"
    ++ [LF] ++ js "        " ++ [QUOTE] ++ js "Sorry, I don't know how to help with that."
    ++ [QUOTE] ++ [LF] ++ js "      " ].

(** The cooked strings of the [codeBlock] template, around its three
    substitutions. *)
Definition prompt_strings : list jsstring :=
  [ [LF] ++ js "      ";
    [LF] ++ [LF] ++ js "      Context sections:" ++ [LF] ++ js "      ";
    [LF] ++ [LF] ++ js "      Question: " ++ [QUOTE; QUOTE; QUOTE] ++ [LF] ++ js "      ";
    [LF] ++ js "      " ++ [QUOTE; QUOTE; QUOTE] ++ [LF] ++ [LF]
    ++ js "      Answer as markdown (including related code snippets if available):"
    ++ [LF] ++ js "    " ].

Definition prompt (contextText sanitizedQuery : jsstring) : jsstring :=
  codeBlock prompt_strings
            [oneLine instruction_strings []; contextText; sanitizedQuery].

Definition completionOptions (prompt query : jsstring) : JsVal :=
  VObj [(js "messages",
          VArr [VObj [(js "role", VStr (js "system")); (js "content", VStr prompt)];
                VObj [(js "role", VStr (js "user")); (js "content", VStr query)]]);
        (js "model", VStr OPENAI_COMPLETIONS_MODEL);
        (js "max_tokens", VNum 512%float);
        (js "temperature", VNum 0%float);
        (js "stream", VBool true)].

Definition completion_request (prompt query : jsstring) : FetchInit :=
  {| fetch_headers := [("Authorization"%string, js "Bearer " ++ OPENAI_API_KEY);
                       ("Content-Type"%string, js "application/json")];
     fetch_method := "POST";
     fetch_body := completionOptions prompt query |}.

Definition match_args (embedding : list float) : JsVal :=
  VObj [(js "embedding", VArr (List.map VNum embedding));
        (js "match_threshold", VNum 0x1.8f5c28f5c28f6p-1%float (* 0.78 *));
        (js "match_count", VNum 10%float);
        (js "min_content_length", VNum 50%float)].

(** The body of the [try] block. *)
Definition pipeline (req : Request) : Async Response :=
  if String.eqb (method req) "OPTIONS" then
    ret (Response_new (BodyText (js "ok")) corsHeaders)
  else
    match searchParams_get "query" (searchParams req) with
    | None | Some [] => throw (UserError (js "Missing query in request data") VUndefined)
    | Some query =>
        let sanitizedQuery := sanitize query in
        moderationResponse <- await (createModeration sanitizedQuery) ;;
        match moderation_results moderationResponse with
        | [] => throw TypeError
        | results :: _ =>
            if flagged results then
              throw (UserError (js "Flagged content")
                       (VObj [(js "flagged", VBool true);
                              (js "categories", categories results)]))
            else
              embeddingResponse <-
                await (createEmbedding OPENAI_EMBEDDINGS_MODEL sanitizedQuery) ;;
              if negb (PrimFloat.eqb (embedding_status embeddingResponse) 200%float) then
                throw (ApplicationError (js "Failed to create embedding for question")
                         (ResponseObject embeddingResponse))
              else
                match embedding_data embeddingResponse with
                | [] => throw TypeError
                | item :: _ =>
                    matched <- await (rpc (js "match_page_sections")
                                          (match_args (embedding item))) ;;
                    if truthy (rpc_error matched) then
                      throw (ApplicationError (js "Failed to match page sections")
                               (JsonData (rpc_error matched)))
                    else
                      match rpc_data matched with
                      | None => throw TypeError
                      | Some pageSections =>
                          contextText <- lift (assemble_context pageSections) ;;
                          let prompt := prompt contextText sanitizedQuery in
                          response <- await (fetch OPENAI_COMPLETIONS_ENDPOINT
                                               (completion_request prompt query)) ;;
                          if negb (ok response) then
                            error <- await (response_json response) ;;
                            throw (ApplicationError (js "Failed to generate completion")
                                     (JsonData error))
                          else
                            ret (Response_new (BodyStream (response_body response))
                                   corsStreamingHeaders)
                      end
                end
        end
    end.

(** The generic answer to every failure that is not the caller's. *)
Definition generic_failure : Response :=
  Response_json
    (VObj [(js "error", VStr (js "There was an error processing your request"))])
    500 corsHeaders.

(** The [catch] block.  In the [ApplicationError] branch the line for
    the log is built with [JSON.stringify(err.data)] first: when that
    throws, nothing is logged and nothing is returned. *)
Definition error_boundary (err : JsError) : Async Response :=
  match err with
  | UserError message data =>
      ret (Response_json (VObj [(js "error", VStr message); (js "data", data)])
             400 corsHeaders)
  | ApplicationError message data =>
      text <- lift (JSON_stringify data) ;;
      _ <- perform (console_error (LogLine message text)) ;;
      ret generic_failure
  | _ =>
      _ <- perform (console_error (LogThrown err)) ;;
      ret generic_failure
  end.

(** The function given to [Deno.serve]: it returns a response, or
    throws (its promise is rejected) and gives no response. *)
Definition handler (req : Request) : Async Response :=
  try_catch (pipeline req) error_boundary.

End Handler.

(** ** The template tags

    The [codeBlock] and [oneLine] tags of the common-tags library, which
    the handler imports.  A tag interleaves the strings of the template
    with its substitutions, each substitution seeing the result so far,
    and then transforms the end result. *)

Module CommonTags.

(** [\s] without the line feed: the class [[^\S\n]]. *)
Definition isBlank (c : N) : bool := isSpace c && negb (c =? LF).

(** [strings.reduce(processSubstitutions)]; a template literal passes
    one string more than substitutions. *)
Fixpoint interleave (onSubstitution : jsstring -> jsstring -> jsstring)
         (resultSoFar : jsstring) (strings substitutions : list jsstring)
  : jsstring :=
  match strings, substitutions with
  | remainingPart :: strings', substitution :: substitutions' =>
      interleave onSubstitution
        (resultSoFar ++ onSubstitution substitution resultSoFar ++ remainingPart)
        strings' substitutions'
  | _, _ => resultSoFar
  end.

Definition tag (onSubstitution : jsstring -> jsstring -> jsstring)
           (onEndResult : jsstring -> jsstring) : TemplateTag :=
  fun strings substitutions =>
    match strings with
    | [] => onEndResult []
    | first :: rest => onEndResult (interleave onSubstitution first rest substitutions)
    end.

(** [s.split("\n")] *)
Fixpoint split_lines (s : jsstring) : list jsstring :=
  match s with
  | [] => [[]]
  | c :: s' =>
      if c =? LF then [] :: split_lines s'
      else match split_lines s' with
           | l :: ls => (c :: l) :: ls
           | [] => [[c]]
           end
  end.

(** [parts.join(sep)] *)
Fixpoint join (sep : jsstring) (parts : list jsstring) : jsstring :=
  match parts with
  | [] => []
  | [p] => p
  | p :: ps => p ++ sep ++ join sep ps
  end.

(** The blanks at the end of a string, with the line feed before them
    if there is one: the match of [/(\n?[^\S\n]+)$/], or nothing. *)
Fixpoint trailing_indent (s : jsstring) : option jsstring :=
  match s with
  | [] => None
  | c :: s' =>
      match trailing_indent s' with
      | Some i =>
          if forallb isBlank s' then
            if isBlank c then Some (c :: s')
            else if c =? LF then Some (c :: s') else Some i
          else Some i
      | None =>
          match s' with
          | [] => if isBlank c then Some [c] else None
          | _ :: _ => None
          end
      end
  end.

(** A substitution of several lines is split at its line feeds and
    joined again with the indentation of the place it is put in. *)
Definition inline_lines (substitution resultSoFar : jsstring) : jsstring :=
  if includes substitution [LF] then
    match trailing_indent resultSoFar with
    | Some indent => join indent (split_lines substitution)
    | None => join [SP] (split_lines substitution)
    end
  else substitution.

(** Length of the run of blanks a string starts with, and the code
    unit after it. *)
Fixpoint blank_run (s : jsstring) : nat * option N :=
  match s with
  | [] => (O, None)
  | c :: s' =>
      if isBlank c then let '(n, d) := blank_run s' in (S n, d)
      else (O, Some c)
  end.

(** The lengths of the matches of [/^[^\S\n]*(?=\S)/gm]: the
    indentation of every line that has text. *)
Fixpoint indent_scan (atStart : bool) (skip : nat) (s : jsstring) : list nat :=
  match s with
  | [] => []
  | c :: s' =>
      let next := indent_scan (isLineTerminator c) in
      match skip with
      | S k => next k s'
      | O =>
          if atStart then
            match blank_run s with
            | (n, Some d) => if isSpace d then next O s' else n :: next (Nat.pred n) s'
            | (_, None) => next O s'
            end
          else next O s'
      end
  end.

Fixpoint minimum (l : list nat) : option nat :=
  match l with
  | [] => None
  | n :: l' => match minimum l' with
               | Some m => Some (Nat.min n m)
               | None => Some n
               end
  end.

(** Does the string start with [n] code units that [.] matches. *)
Fixpoint dots (n : nat) (s : jsstring) : bool :=
  match n, s with
  | O, _ => true
  | S n', c :: s' => negb (isLineTerminator c) && dots n' s'
  | S _, [] => false
  end.

(** Delete the first [n] code units of every line that has as many
    (the replacement of [/^.{n}/gm] by the empty string). *)
Fixpoint strip_scan (n : nat) (atStart : bool) (skip : nat) (s : jsstring)
  : jsstring :=
  match s with
  | [] => []
  | c :: s' =>
      match skip with
      | S k => strip_scan n (isLineTerminator c) k s'
      | O =>
          if atStart && dots n s
          then strip_scan n (isLineTerminator c) (Nat.pred n) s'
          else c :: strip_scan n (isLineTerminator c) O s'
      end
  end.

(** Remove the shortest indentation from every line. *)
Definition stripIndent (endResult : jsstring) : jsstring :=
  match minimum (indent_scan true O endResult) with
  | Some (S n) => strip_scan (S n) true O endResult
  | _ => endResult
  end.

(** Every line feed, with all the white space that follows it, becomes
    one space. *)
Fixpoint join_lines (inRun : bool) (s : jsstring) : jsstring :=
  match s with
  | [] => []
  | c :: s' =>
      if inRun then
        if isSpace c then join_lines true s' else c :: join_lines false s'
      else if c =? LF then SP :: join_lines true s'
      else c :: join_lines false s'
  end.

Definition codeBlock : TemplateTag :=
  tag inline_lines (fun endResult => trim (stripIndent endResult)).

Definition oneLine : TemplateTag :=
  tag (fun substitution _ => substitution)
      (fun endResult => trim (join_lines false endResult)).

End CommonTags.

(** ** Observations on responses and traces *)

(** The value whose JSON text is the body of a response. *)
Definition json_of (r : Response) : JsVal :=
  match body r with
  | BodyJson v => v
  | _ => VUndefined
  end.

(** The response carries [Access-Control-Allow-Origin: *]. *)
Definition cors (r : Response) : Prop :=
  Headers_get "Access-Control-Allow-Origin" (headers r) = Some (js "*").

(** A property of every result a program can end with, whatever the
    calls answer. *)
Inductive Always {A : Type} (P : A -> Prop) : Prog A -> Prop :=
| Always_Ret (a : A) : P a -> Always P (Ret a)
| Always_Vis {X : Type} (e : Eff X) (k : X -> Prog A) :
    (forall x, Always P (k x)) -> Always P (Vis e k).

(** The inits of the [fetch] calls of a trace. *)
Definition fetch_inits (t : list Call) : list FetchInit :=
  flat_map (fun c => match c with
                     | call e => match e with
                                 | fetch _ init => [init]
                                 | _ => []
                                 end
                     end) t.

(** [messages[i].content] of the completion request. *)
Definition message_content (i : nat) (init : FetchInit) : JsVal :=
  match prop "messages" (fetch_body init) with
  | VArr messages => prop "content" (nth i messages VUndefined)
  | _ => VUndefined
  end.

(** The query between its delimiters, as the template lays it out. *)
Definition delimited (q : jsstring) : jsstring :=
  [QUOTE; QUOTE; QUOTE; LF] ++ q ++ [LF; QUOTE; QUOTE; QUOTE].

(** ** Definitions for the statements *)

(** The list is empty or starts with an element that [p] rejects. *)
Definition head_kept {A : Type} (p : A -> bool) (l : list A) : Prop :=
  match l with
  | [] => True
  | x :: _ => p x = false
  end.

(** A string with no white space at either end. *)
Definition trimmed (s : jsstring) : Prop :=
  head_kept isSpace s /\ head_kept isSpace (rev s).

(** Replacing every line feed by a space, code unit by code unit. *)
Definition unfold_line (c : N) : N := if c =? LF then SP else c.

(** The cap on the running token count. *)
Definition cap : nat := 1500.

(** What an included section adds to the context. *)
Definition section_text (d : jsstring) : jsstring := trim d ++ separator.

(** Token count of the first [k] sections together. *)
Definition cumulative (counts : list nat) (k : nat) : nat :=
  list_sum (firstn k counts).

(** The assembly as the specification words it: the largest [j <= k]
    such that the first [j] sections together stay under the cap. *)
Fixpoint longest_under (counts : list nat) (k : nat) : nat :=
  match k with
  | O => O
  | S k' => if (cumulative counts k <? cap)%nat then k else longest_under counts k'
  end.

Definition longest_prefix (encode : jsstring -> list jsstring) (docs : list jsstring)
  : list jsstring :=
  firstn (longest_under (List.map (fun d => length (encode d)) docs) (length docs)) docs.

Definition spec_context (encode : jsstring -> list jsstring) (docs : list jsstring)
  : jsstring :=
  concat (List.map section_text (longest_prefix encode docs)).

(** How many sections the loop takes when entered with a running count
    of [tc]. *)
Fixpoint taken (tc : nat) (counts : list nat) : nat :=
  match counts with
  | [] => O
  | c :: rest => if (cap <=? tc + c)%nat then O else S (taken (tc + c) rest)
  end.

(** A result that is a response with the CORS header, or a throw. *)
Definition cors_if_returned (r : Result Response) : Prop :=
  match r with
  | Ok resp => cors resp
  | Throw _ => True
  end.

(** What the [catch] block answers to the [UserError] of the gate. *)
Definition missing_query_response : Response :=
  Response_json
    (VObj [(js "error", VStr (js "Missing query in request data"));
           (js "data", VUndefined)])
    400 corsHeaders.

(** The text the loop reads from a section whose content is a string or
    falsy. *)
Definition document_of (pageSection : PageSection) : jsstring :=
  match content pageSection with
  | VStr d => d
  | _ => []
  end.

(** The content of the section is a string, or falsy. *)
Definition usable (pageSection : PageSection) : bool :=
  match content pageSection with
  | VStr _ => true
  | v => negb (truthy v)
  end.

(** Token counts of a list of documents. *)
Definition counts_of (encode : jsstring -> list jsstring) (docs : list jsstring)
  : list nat :=
  List.map (fun d => length (encode d)) docs.

(** The collaborator a call goes to. *)
Variant CallKind : Type :=
| KModeration | KEmbedding | KRpc | KFetch | KResponseJson | KLog.

Definition kind_of (c : Call) : CallKind :=
  match c with
  | call e =>
      match e with
      | createModeration _ => KModeration
      | createEmbedding _ _ => KEmbedding
      | rpc _ _ => KRpc
      | fetch _ _ => KFetch
      | response_json _ => KResponseJson
      | console_error _ => KLog
      end
  end.

(** The collaborators in the order the pipeline turns to them. *)
Definition pipeline_order : list CallKind :=
  [KModeration; KEmbedding; KRpc; KFetch; KResponseJson].

(** The answer to an [OPTIONS] request. *)
Definition preflight_response : Response :=
  Response_new (BodyText (js "ok")) corsHeaders.

(** What the [catch] block answers to the [UserError] of a flagged
    verdict. *)
Definition flagged_response (verdict : ModerationResult) : Response :=
  Response_json
    (VObj [(js "error", VStr (js "Flagged content"));
           (js "data", VObj [(js "flagged", VBool true);
                             (js "categories", categories verdict)])])
    400 corsHeaders.

(** The answer that passes a completion stream on. *)
Definition stream_response (stream : ReadableStream) : Response :=
  Response_new (BodyStream stream) corsStreamingHeaders.

(** The five ways a run of the handler can go, as the kinds of the
    calls made and the outcome: no call (preflight or no query);
    moderation only (flagged); the four collaborators (success); a
    beginning of the pipeline, then one line in the log and the generic
    failure; or, when the response object of a failed embedding call
    does not serialise, the moderation and embedding calls and a
    [TypeError] thrown instead of a response. *)
Definition run_shape (kinds : list CallKind) (outcome : Result Response) : Prop :=
  (kinds = []
   /\ (outcome = Ok preflight_response \/ outcome = Ok missing_query_response))
  \/ (kinds = [KModeration] /\ exists verdict, outcome = Ok (flagged_response verdict))
  \/ (kinds = [KModeration; KEmbedding; KRpc; KFetch]
      /\ exists stream, outcome = Ok (stream_response stream))
  \/ (outcome = Ok generic_failure
      /\ exists n, (1 <= n <= 5)%nat /\ kinds = firstn n pipeline_order ++ [KLog])
  \/ (kinds = [KModeration; KEmbedding] /\ outcome = Throw TypeError).

(** A property of the calls made and the result, for every way the
    calls can answer. *)
Inductive AlwaysRun {A : Type} : (list Call -> A -> Prop) -> Prog A -> Prop :=
| AlwaysRun_Ret (P : list Call -> A -> Prop) (a : A) :
    P [] a -> AlwaysRun P (Ret a)
| AlwaysRun_Vis (P : list Call -> A -> Prop) {X : Type} (e : Eff X) (k : X -> Prog A) :
    (forall x, AlwaysRun (fun t a => P (call e :: t) a) (k x)) ->
    AlwaysRun P (Vis e k).

(** Moderation answers, and its first verdict is not flagged. *)
Definition moderation_passes (w : World) (query : jsstring) : Prop :=
  exists moderationResponse verdict others,
    w _ (createModeration (sanitize query)) = Fulfilled moderationResponse
    /\ moderation_results moderationResponse = verdict :: others
    /\ flagged verdict = false.

(** The embedding service answers with status 200 and [item] first. *)
Definition embedding_succeeds (w : World) (model query : jsstring)
           (item : EmbeddingItem) : Prop :=
  exists embeddingResponse others,
    w _ (createEmbedding model (sanitize query)) = Fulfilled embeddingResponse
    /\ PrimFloat.eqb (embedding_status embeddingResponse) 200%float = true
    /\ embedding_data embeddingResponse = item :: others.

(** The store answers without an error, with [pageSections]. *)
Definition retrieval_succeeds (w : World) (item : EmbeddingItem)
           (pageSections : list PageSection) : Prop :=
  exists matched,
    w _ (rpc (js "match_page_sections") (match_args (embedding item)))
    = Fulfilled matched
    /\ truthy (rpc_error matched) = false
    /\ rpc_data matched = Some pageSections.

(** What a call may be given, for a request with this [query]: the
    moderation and embedding services get the normalised query, the
    completion request carries the query itself as the user message. *)
Definition call_carries (query : jsstring) (c : Call) : Prop :=
  match c with
  | call e =>
      match e with
      | createModeration input => input = sanitize query
      | createEmbedding _ input => input = sanitize query
      | fetch _ init => message_content 1 init = VStr query
      | _ => True
      end
  end.

(** The value of a variable of the environment, or [fallback] when the
    variable is empty. *)
Definition configured (ensureGetEnv : string -> jsstring) (name : string)
           (fallback : jsstring) : jsstring :=
  match ensureGetEnv name with
  | [] => fallback
  | value => value
  end.

(** What a call names, for this environment: the embedding call names
    the model of [OPENAI_EMBEDDINGS_MODEL], by default
    [text-embedding-ada-002]; the completion request goes to the
    endpoint of [OPENAI_COMPLETIONS_ENDPOINT], by default the chat
    completions URL of OpenAI, names the model of
    [OPENAI_COMPLETIONS_MODEL], by default [gpt-3.5-turbo], and carries
    the key of [OPENAI_API_KEY] as a bearer token. *)
Definition call_configured (ensureGetEnv : string -> jsstring) (c : Call) : Prop :=
  match c with
  | call e =>
      match e with
      | createEmbedding model _ =>
          model = configured ensureGetEnv "OPENAI_EMBEDDINGS_MODEL"
                    (js "text-embedding-ada-002")
          /\ model <> []
      | fetch url init =>
          url = configured ensureGetEnv "OPENAI_COMPLETIONS_ENDPOINT"
                  (js "https://api.openai.com/v1/chat/completions")
          /\ url <> []
          /\ prop "model" (fetch_body init)
             = VStr (configured ensureGetEnv "OPENAI_COMPLETIONS_MODEL" (js "gpt-3.5-turbo"))
          /\ searchParams_get "Authorization" (fetch_headers init)
             = Some (js "Bearer " ++ ensureGetEnv "OPENAI_API_KEY")
      | _ => True
      end
  end.

(** The content type that goes with a body. *)
Definition content_type_of (b : Body) : jsstring :=
  match b with
  | BodyText _ => js "text/plain;charset=UTF-8"
  | BodyJson _ => js "application/json"
  | BodyStream _ => js "text/event-stream"
  end.

(** ** Sample collaborators

    Concrete instances of the parameters, to run the handler on. *)

Module Sample.

(** A tokenizer with one token per code unit. *)
Definition encode (s : jsstring) : list jsstring := List.map (fun c => [c]) s.

(** An environment that sets no variable to a non-empty value. *)
Definition env (name : string) : jsstring := [].

Definition verdict_clean : ModerationResult :=
  {| flagged := false; categories := VObj [(js "hate", VBool false)] |}.

Definition verdict_flagged : ModerationResult :=
  {| flagged := true; categories := VObj [(js "hate", VBool true)] |}.

Definition stream : ReadableStream := StreamHandle 1.

(** A world in which moderation answers with [verdict], the embedding
    service with [status], the store with [rows], and the completion
    service with a stream. *)
Definition world (verdict : ModerationResult) (status : float)
           (rows : list PageSection) : World :=
  fun X e =>
    match e in Eff X return X with
    | createModeration _ => Fulfilled {| moderation_results := [verdict] |}
    | createEmbedding _ _ =>
        Fulfilled {| embedding_status := status;
                     embedding_data := [{| embedding := [1%float] |}];
                     embedding_json := Some (VObj [(js "status", VNum status)]) |}
    | rpc _ _ => Fulfilled {| rpc_error := VNull; rpc_data := Some rows |}
    | fetch _ _ => Fulfilled {| ok := true; response_body := stream |}
    | response_json _ => Fulfilled VNull
    | console_error _ => tt
    end.

Definition handler : Request -> Async Response :=
  handler env encode CommonTags.codeBlock CommonTags.oneLine.

Definition get (query : jsstring) : Request :=
  {| method := "GET"; searchParams := [("query"%string, query)] |}.

(** A query of two lines, with a space at its end. *)
Definition raw_query : jsstring :=
  js "How do I" ++ [LF] ++ js "reset my password? ".

Definition rows : list PageSection :=
  [section_of (js " Open the account page. "); {| content := VNull |};
   section_of (js "Choose Reset password.")].

Definition request : Request := get raw_query.

(** Moderation flags the query. *)
Definition flagging_world : World := world verdict_flagged 200%float rows.

(** The embedding service answers 429. *)
Definition failing_world : World := world verdict_clean 429%float rows.

(** Every collaborator succeeds. *)
Definition quiet_world : World := world verdict_clean 200%float rows.

End Sample.

(** Further sample data. *)

Module Fixture.

(** Two documents of 800 and 700 code units. *)
Definition long_docs : list jsstring := [repeat 97 800; repeat 98 700].

(** A section whose content is a number. *)
Definition numeric_section : PageSection := {| content := VNum 7%float |}.

(** A world in which moderation settles as [moderation], the embedding
    service answers 200, the store answers [matched], the completion
    service answers [completion], and its error body reads as [error]. *)
Definition world (moderation : Settled ModerationResponse) (matched : RpcResult)
           (completion : FetchResponse) (error : JsVal) : World :=
  fun X e =>
    match e in Eff X return X with
    | createModeration _ => moderation
    | createEmbedding _ _ =>
        Fulfilled {| embedding_status := 200%float;
                     embedding_data := [{| embedding := [1%float] |}];
                     embedding_json := Some (VObj [(js "status", VNum 200%float)]) |}
    | rpc _ _ => Fulfilled matched
    | fetch _ _ => Fulfilled completion
    | response_json _ => Fulfilled error
    | console_error _ => tt
    end.

Definition clean : Settled ModerationResponse :=
  Fulfilled {| moderation_results := [Sample.verdict_clean] |}.

Definition found : RpcResult := {| rpc_error := VNull; rpc_data := Some Sample.rows |}.

Definition store_error : JsVal := VObj [(js "message", VStr (js "timeout"))].

Definition provider_error : JsVal := VObj [(js "error", VStr (js "overloaded"))].

Definition streaming : FetchResponse := {| ok := true; response_body := Sample.stream |}.

Definition refused : FetchResponse := {| ok := false; response_body := Sample.stream |}.

(** The moderation call is rejected. *)
Definition moderation_down : World :=
  world (Rejected (VStr (js "network"))) found streaming VNull.

(** The store reports an error. *)
Definition store_down : World :=
  world clean {| rpc_error := store_error; rpc_data := None |} streaming VNull.

(** The completion service answers with a failure status. *)
Definition completion_down : World := world clean found refused provider_error.

(** A query of white space only. *)
Definition blank_query : jsstring := [SP; LF; SP].

(** A POST request with other parameters and two values of [query]. *)
Definition crowded_request : Request :=
  {| method := "POST";
     searchParams := [("lang"%string, js "en"); ("query"%string, Sample.raw_query);
                      ("query"%string, js "ignored")] |}.

Definition item : EmbeddingItem := {| embedding := [1%float] |}.

(** A response object of the embedding call with status 429 that
    [JSON.stringify] cannot serialise: the request it holds refers back
    to the response. *)
Definition cyclic_response : EmbeddingResponse :=
  {| embedding_status := 429%float; embedding_data := []; embedding_json := None |}.

(** The embedding service answers with [cyclic_response]. *)
Definition embedding_cyclic : World :=
  fun X e =>
    match e in Eff X return X with
    | createModeration _ => clean
    | createEmbedding _ _ => Fulfilled cyclic_response
    | rpc _ _ => Fulfilled found
    | fetch _ _ => Fulfilled streaming
    | response_json _ => Fulfilled VNull
    | console_error _ => tt
    end.

(** The context assembled from the sample rows. *)
Definition context : jsstring :=
  js "Open the account page." ++ separator ++ separator
  ++ js "Choose Reset password." ++ separator.

End Fixture.

(** * Properties *)

(** ** Trimming and normalisation *)

Example sanitize_ex1 :
  sanitize (js " how do" ++ [LF] ++ js "I reset? " ++ [LF])
  = js "how do I reset?".
Proof. reflexivity. Qed.

Section Trim.

Context {A : Type} (p : A -> bool).

Lemma dropWhile_head_kept (l : list A) : head_kept p (dropWhile p l).
Proof.
  induction l as [|x l IH]; simpl; [exact I|].
  destruct (p x) eqn:E; [exact IH | exact E].
Qed.

Lemma dropWhile_id (l : list A) : head_kept p l -> dropWhile p l = l.
Proof. destruct l as [|x l]; simpl; [reflexivity|]. intros ->. reflexivity. Qed.

Lemma dropWhile_suffix (l : list A) : exists pre, l = pre ++ dropWhile p l.
Proof.
  induction l as [|x l [pre IH]]; simpl.
  - exists []. reflexivity.
  - destruct (p x).
    + exists (x :: pre). simpl. f_equal. exact IH.
    + exists []. reflexivity.
Qed.

Lemma head_kept_prefix (l tl : list A) : head_kept p (l ++ tl) -> head_kept p l.
Proof. destruct l; simpl; auto. Qed.

End Trim.

Lemma trim_trimmed (s : jsstring) : trimmed (trim s).
Proof.
  unfold trimmed, trim, trimEnd, trimStart.
  set (a := dropWhile isSpace s).
  split.
  - destruct (dropWhile_suffix isSpace (rev a)) as [pre Hpre].
    apply (f_equal (@rev N)) in Hpre.
    rewrite rev_involutive, rev_app_distr in Hpre.
    apply head_kept_prefix with (tl := rev pre).
    rewrite <- Hpre. apply dropWhile_head_kept.
  - rewrite rev_involutive. apply dropWhile_head_kept.
Qed.

Lemma trimmed_trim (s : jsstring) : trimmed s -> trim s = s.
Proof.
  intros [Hs Hr]. unfold trim, trimEnd, trimStart.
  rewrite (dropWhile_id _ _ Hs), (dropWhile_id _ _ Hr).
  apply rev_involutive.
Qed.

Lemma replaceAll_LF_SP (s : jsstring) :
  replaceAll [LF] [SP] s = List.map unfold_line s.
Proof.
  unfold replaceAll.
  induction s as [|c s IH]; [reflexivity|].
  cbn [replaceAll_scan startsWith length Nat.pred List.map].
  rewrite IH, andb_true_r, N.eqb_sym.
  change (unfold_line c) with (if c =? LF then SP else c).
  destruct (c =? LF); reflexivity.
Qed.

Lemma unfold_line_kept (c : N) : isSpace c = false -> unfold_line c = c.
Proof.
  unfold unfold_line. destruct (c =? LF) eqn:E; [|reflexivity].
  apply N.eqb_eq in E. subst c. discriminate.
Qed.

Lemma unfold_line_idem (c : N) : unfold_line (unfold_line c) = unfold_line c.
Proof. unfold unfold_line. destruct (c =? LF) eqn:E; [reflexivity|]. now rewrite E. Qed.

Lemma head_kept_unfold_line (s : jsstring) :
  head_kept isSpace s -> head_kept isSpace (List.map unfold_line s).
Proof.
  destruct s as [|c s]; simpl; [auto|].
  intros H. rewrite (unfold_line_kept _ H). exact H.
Qed.

Lemma trimmed_unfold_line (s : jsstring) :
  trimmed s -> trimmed (List.map unfold_line s).
Proof.
  intros [Hs Hr]. split.
  - apply head_kept_unfold_line, Hs.
  - rewrite <- map_rev. apply head_kept_unfold_line, Hr.
Qed.

Lemma sanitize_trimmed (s : jsstring) : trimmed (sanitize s).
Proof.
  unfold sanitize. rewrite replaceAll_LF_SP.
  apply trimmed_unfold_line, trim_trimmed.
Qed.

(** C8: the normalisation of the query (trim, then every line feed
    replaced by a space) is idempotent: normalising a normalised string
    gives that string back. *)
Theorem sanitize_idempotent (s : jsstring) : sanitize (sanitize s) = sanitize s.
Proof.
  unfold sanitize at 1. rewrite (trimmed_trim _ (sanitize_trimmed s)).
  unfold sanitize. rewrite !replaceAll_LF_SP, List.map_map.
  apply List.map_ext. intros c. apply unfold_line_idem.
Qed.

(** ** Context assembly *)

Lemma currentDocument_of_string (d : jsstring) :
  currentDocument_of (section_of d) = VStr d.
Proof. destruct d; reflexivity. Qed.

Lemma context_loop_taken (encode : jsstring -> list jsstring) (docs : list jsstring) :
  forall tc ctx,
    context_loop encode (List.map section_of docs) tc ctx
    = Ok (ctx ++ concat (List.map section_text
                           (firstn (taken tc (List.map (fun d => length (encode d)) docs))
                                   docs))).
Proof.
  induction docs as [|d docs IH]; intros tc ctx.
  - simpl. now rewrite app_nil_r.
  - cbn [List.map context_loop taken]. rewrite currentDocument_of_string.
    fold cap.
    destruct (cap <=? tc + length (encode d))%nat.
    + simpl. now rewrite app_nil_r.
    + rewrite IH. cbn [firstn List.map concat]. now rewrite <- app_assoc.
Qed.

Lemma cumulative_cons (c : nat) (counts : list nat) (k : nat) :
  cumulative (c :: counts) (S k) = (c + cumulative counts k)%nat.
Proof. reflexivity. Qed.

Lemma taken_le (counts : list nat) : forall tc, (taken tc counts <= length counts)%nat.
Proof.
  induction counts as [|c counts IH]; intros tc; cbn [taken length]; [lia|].
  destruct (cap <=? tc + c)%nat; [lia|]. specialize (IH (tc + c)%nat). lia.
Qed.

(** The loop stops exactly where the running count leaves the cap. *)
Lemma taken_spec (counts : list nat) :
  forall tc j, (tc < cap)%nat -> (j <= length counts)%nat ->
    ((tc + cumulative counts j < cap)%nat <-> (j <= taken tc counts)%nat).
Proof.
  induction counts as [|c counts IH]; intros tc j Htc Hj.
  - simpl in Hj. assert (j = O) by lia. subst j. unfold cumulative. simpl. lia.
  - destruct j as [|j].
    + unfold cumulative. simpl. lia.
    + rewrite cumulative_cons. cbn [taken].
      destruct (Nat.leb_spec cap (tc + c)) as [Hge|Hlt].
      * lia.
      * simpl in Hj. specialize (IH (tc + c)%nat j Hlt ltac:(lia)). lia.
Qed.

Lemma longest_under_unique (counts : list nat) (k : nat) :
  (forall j, (j <= length counts)%nat -> ((cumulative counts j < cap)%nat <-> (j <= k)%nat)) ->
  forall m, (m <= length counts)%nat -> longest_under counts m = Nat.min m k.
Proof.
  intros Hk. induction m as [|m IH]; intros Hm; [reflexivity|].
  cbn [longest_under].
  destruct (Nat.ltb_spec (cumulative counts (S m)) cap) as [Hlt|Hge].
  - apply Hk in Hlt; lia.
  - rewrite IH by lia.
    assert (~ (S m <= k)%nat) by (intros Hle; apply Hk in Hle; lia). lia.
Qed.

Lemma longest_under_taken (counts : list nat) :
  longest_under counts (length counts) = taken 0 counts.
Proof.
  rewrite (longest_under_unique counts (taken 0 counts)).
  - pose proof (taken_le counts 0). lia.
  - intros j Hj. apply (taken_spec counts 0 j); [unfold cap; lia | exact Hj].
  - lia.
Qed.

(** C1: for every sequence of sections with string contents and every
    token-counting function, the assembled context is the concatenation,
    each content trimmed and followed by the separator, of the longest
    prefix of sections whose cumulative token count stays under 1500: a
    prefix of [j] sections is under the cap exactly when it is within the
    one taken, so the first section that brings the count to 1500 or more
    is left out whole; when the first section alone reaches the cap the
    context is the empty string, and nothing is thrown. *)
Theorem assemble_context_longest_prefix
        (encode : jsstring -> list jsstring) (docs : list jsstring) :
  let counts := List.map (fun d => length (encode d)) docs in
  let k := longest_under counts (length docs) in
  assemble_context encode (List.map section_of docs) = Ok (spec_context encode docs)
  /\ longest_prefix encode docs = firstn k docs
  /\ (k <= length docs)%nat
  /\ (forall j, (j <= length docs)%nat ->
        ((cumulative counts j < 1500)%nat <-> (j <= k)%nat))
  /\ (forall d rest, docs = d :: rest -> (1500 <= length (encode d))%nat ->
        assemble_context encode (List.map section_of docs) = Ok []).
Proof.
  intros counts k.
  assert (Hlen : length counts = length docs) by apply length_map.
  assert (Hk : k = taken 0 counts).
  { subst k. rewrite <- Hlen. apply longest_under_taken. }
  assert (Hrun : assemble_context encode (List.map section_of docs)
                 = Ok (concat (List.map section_text (firstn k docs)))).
  { unfold assemble_context. rewrite context_loop_taken. fold counts.
    rewrite <- Hk. reflexivity. }
  split; [exact Hrun|]. split; [reflexivity|]. split.
  - rewrite Hk, <- Hlen. apply taken_le.
  - split.
    + intros j Hj. rewrite Hk. rewrite <- Hlen in Hj.
      apply (taken_spec counts 0 j); [unfold cap; lia | exact Hj].
    + intros d rest -> Hd. unfold assemble_context. cbn [List.map context_loop].
      rewrite currentDocument_of_string.
      destruct (Nat.leb_spec 1500 (0 + length (encode d))) as [_|Hlt]; [reflexivity|].
      simpl in Hlt. lia.
Qed.

Example assemble_three_sections :
  assemble_context Sample.encode
    (List.map section_of [repeat 97 700 ++ [SP]; [SP] ++ repeat 98 698; repeat 99 100; js "d"])
  = Ok (repeat 97 700 ++ separator ++ repeat 98 698 ++ separator).
Proof. vm_compute. reflexivity. Qed.



Example falsy_contents_run :
  assemble_context Sample.encode
    [ {| content := VUndefined |}; {| content := VNum 0%float |}; section_of (js "abc");
      {| content := VBool false |} ]
  = Ok (separator ++ separator ++ js "abc" ++ separator ++ separator).
Proof. vm_compute. reflexivity. Qed.

(** ** The request gate and the error boundary *)

Lemma run_try_await {X A : Type} (w : World) (e : Eff (Settled X))
      (k : X -> Async A) (h : JsError -> Async A) :
  run w (try_catch (bind (await e) k) h)
  = let '(t, a) := run w (match w _ e with
                          | Fulfilled x => try_catch (k x) h
                          | Rejected reason => h (Rejection reason)
                          end) in
    (call e :: t, a).
Proof. cbn. destruct (w _ e); reflexivity. Qed.

Lemma Always_run {A : Type} (P : A -> Prop) (w : World) (p : Prog A) :
  Always P p -> P (snd (run w p)).
Proof.
  induction 1 as [a Ha | X e k _ IH]; [exact Ha|].
  cbn [run]. specialize (IH (w _ e)). destruct (run w (k (w X e))). exact IH.
Qed.

Lemma Always_try_catch (Q : Result Response -> Prop) (p : Async Response)
      (h : JsError -> Async Response) :
  Always (fun r => match r with Ok resp => Q (Ok resp) | Throw _ => True end) p ->
  (forall e, Always Q (h e)) ->
  Always Q (try_catch p h).
Proof.
  intros Hp Hh. induction Hp as [[resp|e] Ha | X e k _ IH]; cbn [try_catch].
  - constructor. exact Ha.
  - apply Hh.
  - constructor. exact IH.
Qed.

Lemma Always_bind {A B : Type} (Q : Result B -> Prop) (p : Async A) (k : A -> Async B) :
  (forall e, Q (Throw e)) ->
  (forall a, Always Q (k a)) ->
  Always Q (bind p k).
Proof.
  intros Hthrow Hk. induction p as [[a|e] | X e h IH]; cbn [bind].
  - apply Hk.
  - constructor. apply Hthrow.
  - constructor. intros x. apply IH.
Qed.

Lemma with_content_type_other (b : Body) (h : gmap string jsstring) (name : string) :
  name <> "content-type"%string -> with_content_type b h !! name = h !! name.
Proof.
  intros Hne. unfold with_content_type.
  destruct (h !! "content-type"%string), (default_content_type b); try reflexivity.
  apply lookup_insert_ne. congruence.
Qed.

Lemma cors_with_content_type (b : Body) (h : gmap string jsstring) :
  Headers_get "Access-Control-Allow-Origin" h = Some (js "*") ->
  Headers_get "Access-Control-Allow-Origin" (with_content_type b h) = Some (js "*").
Proof.
  unfold Headers_get. intros H. rewrite with_content_type_other; [exact H|].
  vm_compute. discriminate.
Qed.

Lemma cors_corsHeaders_new (b : Body) : cors (Response_new b corsHeaders).
Proof. apply cors_with_content_type. vm_compute. reflexivity. Qed.

Lemma cors_corsStreamingHeaders_new (b : Body) :
  cors (Response_new b corsStreamingHeaders).
Proof. apply cors_with_content_type. vm_compute. reflexivity. Qed.

Lemma cors_corsHeaders_json (data : JsVal) (st : Z) :
  cors (Response_json data st corsHeaders).
Proof. apply cors_with_content_type. vm_compute. reflexivity. Qed.

Section Boundary.

Variable ensureGetEnv : string -> jsstring.
Variable tokenizer_encode : jsstring -> list jsstring.
Variables codeBlock oneLine : TemplateTag.

Local Abbreviation serve := (handler ensureGetEnv tokenizer_encode codeBlock oneLine).
Local Abbreviation steps := (pipeline ensureGetEnv tokenizer_encode codeBlock oneLine).

Lemma not_options (req : Request) :
  method req <> "OPTIONS"%string -> String.eqb (method req) "OPTIONS" = false.
Proof. intros H. now apply String.eqb_neq. Qed.

(** C3 (the code at an [OPTIONS] request): the handler answers at once,
    without any call, with status 200 and the CORS headers; the body it
    sends is the two-character text [ok], not an empty body. *)
Theorem options_preflight_answers_ok (req : Request) :
  method req = "OPTIONS"%string ->
  exists resp,
    serve req = Ret (Ok resp)
    /\ (forall w, run w (serve req) = ([], Ok resp))
    /\ status resp = 200%Z
    /\ cors resp
    /\ body resp = BodyText (js "ok")
    /\ body resp <> BodyText [].
Proof.
  intros Hm. exists (Response_new (BodyText (js "ok")) corsHeaders).
  assert (Hs : serve req = Ret (Ok (Response_new (BodyText (js "ok")) corsHeaders))).
  { unfold handler, pipeline. rewrite Hm. reflexivity. }
  rewrite Hs. split; [reflexivity|]. split; [reflexivity|]. split; [reflexivity|].
  split; [apply cors_corsHeaders_new|]. split; [reflexivity | discriminate].
Qed.

Lemma gate_rejects (req : Request) :
  method req <> "OPTIONS"%string ->
  searchParams_get "query" (searchParams req) = None
  \/ searchParams_get "query" (searchParams req) = Some [] ->
  serve req = Ret (Ok missing_query_response).
Proof.
  intros Hm [Hq|Hq]; unfold handler, pipeline;
    rewrite (not_options _ Hm), Hq; reflexivity.
Qed.

(** C5: a request that is not [OPTIONS] and whose query string has no
    [query] parameter is answered with status 400 and a JSON body whose
    [error] field is "Missing query in request data"; the handler makes
    no call at all. *)
Theorem missing_query_rejected (req : Request) :
  method req <> "OPTIONS"%string ->
  searchParams_get "query" (searchParams req) = None ->
  exists resp,
    serve req = Ret (Ok resp)
    /\ (forall w, run w (serve req) = ([], Ok resp))
    /\ status resp = 400%Z
    /\ (exists v, body resp = BodyJson v)
    /\ prop "error" (json_of resp) = VStr (js "Missing query in request data").
Proof.
  intros Hm Hq. exists missing_query_response.
  rewrite (gate_rejects req Hm (or_introl Hq)).
  repeat split. eexists. reflexivity.
Qed.

(** C9: a request that is not [OPTIONS] and whose [query] parameter is
    present but empty is treated exactly as one without the parameter:
    the handler makes no call and gives the very response it gives to
    every request that lacks the parameter, status 400 with [error]
    "Missing query in request data". *)
Theorem empty_query_rejected (req : Request) :
  method req <> "OPTIONS"%string ->
  searchParams_get "query" (searchParams req) = Some [] ->
  exists resp,
    serve req = Ret (Ok resp)
    /\ (forall absent : Request,
          method absent <> "OPTIONS"%string ->
          searchParams_get "query" (searchParams absent) = None ->
          serve absent = Ret (Ok resp))
    /\ (forall w, run w (serve req) = ([], Ok resp))
    /\ status resp = 400%Z
    /\ prop "error" (json_of resp) = VStr (js "Missing query in request data").
Proof.
  intros Hm Hq. exists missing_query_response.
  rewrite (gate_rejects req Hm (or_intror Hq)).
  split; [reflexivity|]. split.
  - intros absent Ha Hnone. apply gate_rejects; [exact Ha | left; exact Hnone].
  - repeat split.
Qed.

(** C4: when the moderation verdict (the first entry of the results)
    is flagged, the handler stops there: the only call made is the
    moderation call, and the answer is status 400 with a JSON body whose
    [data.flagged] is [true] and whose [data.categories] is the
    categories mapping of the verdict. *)
Theorem flagged_query_rejected
        (w : World) (req : Request) (query : jsstring)
        (verdict : ModerationResult) (others : list ModerationResult) :
  method req <> "OPTIONS"%string ->
  searchParams_get "query" (searchParams req) = Some query ->
  query <> [] ->
  w _ (createModeration (sanitize query))
  = Fulfilled {| moderation_results := verdict :: others |} ->
  flagged verdict = true ->
  exists resp,
    run w (serve req) = ([call (createModeration (sanitize query))], Ok resp)
    /\ status resp = 400%Z
    /\ prop "flagged" (prop "data" (json_of resp)) = VBool true
    /\ prop "categories" (prop "data" (json_of resp)) = categories verdict.
Proof.
  intros Hm Hq Hne Hmod Hflag.
  destruct query as [|c query]; [congruence|].
  eexists. split.
  - unfold handler, pipeline. rewrite (not_options _ Hm), Hq.
    rewrite run_try_await, Hmod. cbn [moderation_results].
    rewrite Hflag. cbn [try_catch throw ret error_boundary run]. reflexivity.
  - repeat split.
Qed.

(** C6 (the code at an embedding response with a status other than
    200): the [catch] block first builds the line for the log with
    [JSON.stringify] of the response object.  When the object
    serialises, the line is logged and the answer is status 500 with the
    fixed JSON body [{error: "There was an error processing your
    request"}], whatever the object holds.  When it does not,
    [JSON.stringify] throws inside the [catch] block: after the two
    calls nothing is logged and the handler throws a [TypeError] instead
    of answering. *)
Theorem embedding_failure_generic
        (w : World) (req : Request) (query : jsstring)
        (verdict : ModerationResult) (others : list ModerationResult)
        (embeddingResponse : EmbeddingResponse) :
  method req <> "OPTIONS"%string ->
  searchParams_get "query" (searchParams req) = Some query ->
  query <> [] ->
  w _ (createModeration (sanitize query))
  = Fulfilled {| moderation_results := verdict :: others |} ->
  flagged verdict = false ->
  w _ (createEmbedding (OPENAI_EMBEDDINGS_MODEL ensureGetEnv) (sanitize query))
  = Fulfilled embeddingResponse ->
  PrimFloat.eqb (embedding_status embeddingResponse) 200%float = false ->
  run w (serve req)
  = match embedding_json embeddingResponse with
    | Some text =>
        ([call (createModeration (sanitize query));
          call (createEmbedding (OPENAI_EMBEDDINGS_MODEL ensureGetEnv) (sanitize query));
          call (console_error
                  (LogLine (js "Failed to create embedding for question") text))],
         Ok generic_failure)
    | None =>
        ([call (createModeration (sanitize query));
          call (createEmbedding (OPENAI_EMBEDDINGS_MODEL ensureGetEnv) (sanitize query))],
         Throw TypeError)
    end
  /\ status generic_failure = 500%Z
  /\ body generic_failure
     = BodyJson (VObj [(js "error",
                        VStr (js "There was an error processing your request"))]).
Proof.
  intros Hm Hq Hne Hmod Hflag Hemb Hstatus.
  destruct query as [|c query]; [congruence|].
  split; [|split; reflexivity].
  unfold handler, pipeline. rewrite (not_options _ Hm), Hq.
  rewrite run_try_await, Hmod. cbn [moderation_results].
  rewrite Hflag, run_try_await, Hemb, Hstatus.
  cbn [negb try_catch throw error_boundary JSON_stringify lift bind].
  destruct (embedding_json embeddingResponse); reflexivity.
Qed.

Lemma pipeline_cors (req : Request) : Always cors_if_returned (steps req).
Proof.
  assert (Hthrow : forall e, cors_if_returned (Throw e)) by (intros; exact I).
  unfold pipeline.
  destruct (String.eqb (method req) "OPTIONS").
  { constructor. apply cors_corsHeaders_new. }
  destruct (searchParams_get "query" (searchParams req)) as [[|c query]|];
    try (constructor; exact I).
  apply Always_bind; [exact Hthrow|]. intros moderationResponse.
  destruct (moderation_results moderationResponse) as [|results ?];
    [constructor; exact I|].
  destruct (flagged results); [constructor; exact I|].
  apply Always_bind; [exact Hthrow|]. intros embeddingResponse.
  destruct (negb _); [constructor; exact I|].
  destruct (embedding_data embeddingResponse) as [|item ?]; [constructor; exact I|].
  apply Always_bind; [exact Hthrow|]. intros matched.
  destruct (truthy (rpc_error matched)); [constructor; exact I|].
  destruct (rpc_data matched) as [pageSections|]; [|constructor; exact I].
  apply Always_bind; [exact Hthrow|]. intros contextText.
  apply Always_bind; [exact Hthrow|]. intros response.
  destruct (negb (ok response)).
  - apply Always_bind; [exact Hthrow|]. intros error. constructor. exact I.
  - constructor. apply cors_corsStreamingHeaders_new.
Qed.

Lemma error_boundary_cors (err : JsError) :
  Always cors_if_returned (error_boundary err).
Proof.
  destruct err as [message data|message data|reason|];
    cbn [error_boundary ret perform bind lift].
  - constructor. apply cors_corsHeaders_json.
  - destruct (JSON_stringify data).
    + constructor. intros _. constructor. apply cors_corsHeaders_json.
    + constructor. exact I.
  - constructor. intros _. constructor. apply cors_corsHeaders_json.
  - constructor. intros _. constructor. apply cors_corsHeaders_json.
Qed.

(** C7: every response the handler produces (the streamed answer, the
    400 of a user error, the 500 of any other failure, the answer to
    [OPTIONS]) carries [Access-Control-Allow-Origin: *], whatever the
    calls answer. *)
Theorem every_response_has_cors (req : Request) :
  Always cors_if_returned (serve req)
  /\ (forall (w : World) (resp : Response),
        snd (run w (serve req)) = Ok resp ->
        Headers_get "Access-Control-Allow-Origin" (headers resp) = Some (js "*")).
Proof.
  assert (H : Always cors_if_returned (serve req)).
  { unfold handler. apply Always_try_catch.
    - apply pipeline_cors.
    - apply error_boundary_cors. }
  split; [exact H|]. intros w resp Hresp.
  pose proof (Always_run cors_if_returned w _ H) as Hrun.
  rewrite Hresp in Hrun. exact Hrun.
Qed.

(** C2, amended: for every request that reaches the answer-generation
    stage, the one completion request made carries as its system
    message the prompt template filled with the fixed instructions, the
    assembled context and the normalised query (trimmed, line feeds
    replaced by spaces); the query as extracted from the request is
    sent as the user message only. *)
Theorem prompt_carries_normalized_query
        (w : World) (req : Request) (query : jsstring)
        (verdict : ModerationResult) (others : list ModerationResult)
        (embeddingResponse : EmbeddingResponse)
        (item : EmbeddingItem) (items : list EmbeddingItem)
        (matched : RpcResult) (pageSections : list PageSection)
        (contextText : jsstring) :
  method req <> "OPTIONS"%string ->
  searchParams_get "query" (searchParams req) = Some query ->
  query <> [] ->
  w _ (createModeration (sanitize query))
  = Fulfilled {| moderation_results := verdict :: others |} ->
  flagged verdict = false ->
  w _ (createEmbedding (OPENAI_EMBEDDINGS_MODEL ensureGetEnv) (sanitize query))
  = Fulfilled embeddingResponse ->
  PrimFloat.eqb (embedding_status embeddingResponse) 200%float = true ->
  embedding_data embeddingResponse = item :: items ->
  w _ (rpc (js "match_page_sections") (match_args (embedding item)))
  = Fulfilled matched ->
  truthy (rpc_error matched) = false ->
  rpc_data matched = Some pageSections ->
  assemble_context tokenizer_encode pageSections = Ok contextText ->
  let calls := fetch_inits (fst (run w (serve req))) in
  List.map (message_content 0) calls
  = [VStr (codeBlock prompt_strings
             [oneLine instruction_strings []; contextText; sanitize query])]
  /\ List.map (message_content 1) calls = [VStr query].
Proof.
  intros Hm Hq Hne Hmod Hflag Hemb Hstatus Hdata Hrpc Herr Hrows Hctx.
  destruct query as [|c query]; [congruence|].
  unfold handler, pipeline. rewrite (not_options _ Hm), Hq.
  rewrite run_try_await, Hmod. cbn [moderation_results].
  rewrite Hflag, run_try_await, Hemb, Hstatus. cbn [negb]. rewrite Hdata.
  rewrite run_try_await, Hrpc, Herr, Hrows, Hctx.
  cbn [lift bind]. rewrite run_try_await.
  destruct (w _ (fetch _ _)) as [response|reason].
  - destruct (ok response); cbn [negb].
    + cbn [try_catch ret run fst fetch_inits flat_map app List.map]. split; reflexivity.
    + rewrite run_try_await.
      destruct (w _ (response_json response));
        cbn [try_catch throw ret perform lift bind JSON_stringify error_boundary run fst
             fetch_inits flat_map app List.map];
        split; reflexivity.
  - cbn [ret perform lift bind error_boundary run fst fetch_inits flat_map app List.map].
    split; reflexivity.
Qed.

End Boundary.

(** ** The handler on sample requests *)

Lemma options_preflight_answers_ok_witness :
  method {| method := "OPTIONS"; searchParams := [] |} = "OPTIONS"%string
  /\ exists resp,
       Sample.handler {| method := "OPTIONS"; searchParams := [] |} = Ret (Ok resp)
       /\ (forall w, run w (Sample.handler {| method := "OPTIONS"; searchParams := [] |})
                     = ([], Ok resp))
       /\ status resp = 200%Z
       /\ cors resp
       /\ body resp = BodyText (js "ok")
       /\ body resp <> BodyText [].
Proof.
  split; [reflexivity|].
  apply (options_preflight_answers_ok Sample.env Sample.encode
           CommonTags.codeBlock CommonTags.oneLine
           {| method := "OPTIONS"; searchParams := [] |}).
  reflexivity.
Defined.

Lemma missing_query_rejected_witness :
  method {| method := "GET"; searchParams := [("q"%string, js "x")] |} <> "OPTIONS"%string
  /\ searchParams_get "query" [("q"%string, js "x")] = None
  /\ exists resp,
       Sample.handler {| method := "GET"; searchParams := [("q"%string, js "x")] |}
       = Ret (Ok resp)
       /\ (forall w,
             run w (Sample.handler {| method := "GET"; searchParams := [("q"%string, js "x")] |})
             = ([], Ok resp))
       /\ status resp = 400%Z
       /\ (exists v, body resp = BodyJson v)
       /\ prop "error" (json_of resp) = VStr (js "Missing query in request data").
Proof.
  split; [discriminate|]. split; [reflexivity|].
  apply (missing_query_rejected Sample.env Sample.encode
           CommonTags.codeBlock CommonTags.oneLine
           {| method := "GET"; searchParams := [("q"%string, js "x")] |});
    [discriminate | reflexivity].
Defined.

Lemma empty_query_rejected_witness :
  method (Sample.get []) <> "OPTIONS"%string
  /\ searchParams_get "query" (searchParams (Sample.get [])) = Some []
  /\ exists resp,
       Sample.handler (Sample.get []) = Ret (Ok resp)
       /\ (forall absent : Request,
             method absent <> "OPTIONS"%string ->
             searchParams_get "query" (searchParams absent) = None ->
             Sample.handler absent = Ret (Ok resp))
       /\ (forall w, run w (Sample.handler (Sample.get [])) = ([], Ok resp))
       /\ status resp = 400%Z
       /\ prop "error" (json_of resp) = VStr (js "Missing query in request data").
Proof.
  split; [discriminate|]. split; [reflexivity|].
  apply (empty_query_rejected Sample.env Sample.encode
           CommonTags.codeBlock CommonTags.oneLine (Sample.get []));
    [discriminate | reflexivity].
Defined.

Lemma flagged_query_rejected_witness :
  method Sample.request <> "OPTIONS"%string
  /\ searchParams_get "query" (searchParams Sample.request) = Some Sample.raw_query
  /\ Sample.raw_query <> []
  /\ Sample.flagging_world _ (createModeration (sanitize Sample.raw_query))
     = Fulfilled {| moderation_results := [Sample.verdict_flagged] |}
  /\ flagged Sample.verdict_flagged = true
  /\ exists resp,
       run Sample.flagging_world (Sample.handler Sample.request)
       = ([call (createModeration (sanitize Sample.raw_query))], Ok resp)
       /\ status resp = 400%Z
       /\ prop "flagged" (prop "data" (json_of resp)) = VBool true
       /\ prop "categories" (prop "data" (json_of resp))
          = categories Sample.verdict_flagged.
Proof.
  split; [discriminate|]. split; [reflexivity|]. split; [discriminate|].
  split; [reflexivity|]. split; [reflexivity|].
  apply (flagged_query_rejected Sample.env Sample.encode
           CommonTags.codeBlock CommonTags.oneLine
           Sample.flagging_world Sample.request Sample.raw_query
           Sample.verdict_flagged []);
    [discriminate | reflexivity | discriminate | reflexivity | reflexivity].
Defined.

Lemma embedding_failure_generic_witness :
  method Sample.request <> "OPTIONS"%string
  /\ searchParams_get "query" (searchParams Sample.request) = Some Sample.raw_query
  /\ Sample.raw_query <> []
  /\ Fixture.embedding_cyclic _ (createModeration (sanitize Sample.raw_query))
     = Fulfilled {| moderation_results := [Sample.verdict_clean] |}
  /\ flagged Sample.verdict_clean = false
  /\ Fixture.embedding_cyclic _
       (createEmbedding (OPENAI_EMBEDDINGS_MODEL Sample.env) (sanitize Sample.raw_query))
     = Fulfilled Fixture.cyclic_response
  /\ PrimFloat.eqb (embedding_status Fixture.cyclic_response) 200%float = false
  /\ run Fixture.embedding_cyclic (Sample.handler Sample.request)
     = ([call (createModeration (sanitize Sample.raw_query));
         call (createEmbedding (OPENAI_EMBEDDINGS_MODEL Sample.env)
                 (sanitize Sample.raw_query))],
        Throw TypeError).
Proof.
  split; [discriminate|]. split; [reflexivity|]. split; [discriminate|].
  split; [reflexivity|]. split; [reflexivity|]. split; [reflexivity|].
  split; [reflexivity|].
  destruct (embedding_failure_generic Sample.env Sample.encode
              CommonTags.codeBlock CommonTags.oneLine
              Fixture.embedding_cyclic Sample.request Sample.raw_query
              Sample.verdict_clean [] Fixture.cyclic_response)
    as [Hrun _];
    [discriminate | reflexivity | discriminate | reflexivity | reflexivity
     | reflexivity | reflexivity |].
  exact Hrun.
Defined.

(** The same request when the response object serialises: the failure
    is logged and answered with the generic 500. *)
Example embedding_failure_logged :
  run Sample.failing_world (Sample.handler Sample.request)
  = ([call (createModeration (sanitize Sample.raw_query));
      call (createEmbedding (OPENAI_EMBEDDINGS_MODEL Sample.env)
              (sanitize Sample.raw_query));
      call (console_error
              (LogLine (js "Failed to create embedding for question")
                       (VObj [(js "status", VNum 429%float)])))],
     Ok generic_failure).
Proof. reflexivity. Qed.

Lemma prompt_carries_normalized_query_witness :
  method Sample.request <> "OPTIONS"%string
  /\ searchParams_get "query" (searchParams Sample.request) = Some Sample.raw_query
  /\ Sample.raw_query <> []
  /\ assemble_context Sample.encode Sample.rows
     = Ok (js "Open the account page." ++ separator ++ separator
           ++ js "Choose Reset password." ++ separator)
  /\ List.map (message_content 1)
       (fetch_inits (fst (run Sample.quiet_world (Sample.handler Sample.request))))
     = [VStr Sample.raw_query].
Proof.
  split; [discriminate|]. split; [reflexivity|]. split; [discriminate|].
  split; [reflexivity|].
  apply (prompt_carries_normalized_query Sample.env Sample.encode
           CommonTags.codeBlock CommonTags.oneLine
           Sample.quiet_world Sample.request Sample.raw_query
           Sample.verdict_clean []
           {| embedding_status := 200%float;
              embedding_data := [{| embedding := [1%float] |}];
              embedding_json := Some (VObj [(js "status", VNum 200%float)]) |}
           {| embedding := [1%float] |} []
           {| rpc_error := VNull; rpc_data := Some Sample.rows |} Sample.rows
           (js "Open the account page." ++ separator ++ separator
            ++ js "Choose Reset password." ++ separator));
    first [discriminate | reflexivity].
Defined.

(** C2, as stated, fails: for a query of two lines ending in a space,
    with nothing retrieved, the prompt sent as the system message holds
    the normalised query between the delimiters and holds the query as
    extracted from the request nowhere. *)
Lemma prompt_omits_raw_query :
  exists p,
    List.map (message_content 0)
      (fetch_inits (fst (run (Sample.world Sample.verdict_clean 200%float [])
                             (Sample.handler Sample.request))))
    = [VStr p]
    /\ includes p (delimited Sample.raw_query) = false
    /\ includes p Sample.raw_query = false
    /\ includes p (delimited (js "How do I reset my password?")) = true.
Proof.
  eexists. split; [vm_compute; reflexivity|].
  repeat split; vm_compute; reflexivity.
Qed.

(** The run of a request when every collaborator succeeds: four calls,
    then the stream passed on with status 200 and the event-stream
    content type. *)
Example success_streams :
  exists calls resp,
    run Sample.quiet_world (Sample.handler Sample.request) = (calls, Ok resp)
    /\ length calls = 4%nat
    /\ status resp = 200%Z
    /\ body resp = BodyStream Sample.stream
    /\ Headers_get "content-type" (headers resp) = Some (js "text/event-stream").
Proof. do 2 eexists. split; [reflexivity|]. vm_compute. repeat split. Qed.

(** In the template the third substitution stands on a line of its own
    between two lines of three quotes. *)
Example prompt_strings_delimit_query :
  exists before after,
    nth 2 prompt_strings [] = before ++ [QUOTE; QUOTE; QUOTE; LF] ++ js "      "
    /\ nth 3 prompt_strings [] = [LF] ++ js "      " ++ [QUOTE; QUOTE; QUOTE] ++ after.
Proof.
  exists ([LF; LF] ++ js "      Question: ").
  exists ([LF; LF]
          ++ js "      Answer as markdown (including related code snippets if available):"
          ++ [LF] ++ js "    ").
  split; reflexivity.
Qed.

(** The prompt for one retrieved section and a normalised query. *)
Example prompt_sample :
  prompt CommonTags.codeBlock CommonTags.oneLine
         (js "Open the account page." ++ separator) (js "How do I reset?")
  = js "You are a very enthusiastic support representative who loves to help people! "
    ++ js "Given the following sections from the product documentation, answer the "
    ++ js "question using only that information, outputted in markdown format. "
    ++ js "If you are unsure and the answer is not explicitly written in the "
    ++ js "documentation, say " ++ [QUOTE]
    ++ js "Sorry, I don't know how to help with that." ++ [QUOTE] ++ [LF]
    ++ [LF]
    ++ js "Context sections:" ++ [LF]
    ++ js "Open the account page." ++ [LF]
    ++ js "---" ++ [LF]
    ++ [LF]
    ++ [LF]
    ++ js "Question: " ++ [QUOTE; QUOTE; QUOTE] ++ [LF]
    ++ js "How do I reset?" ++ [LF]
    ++ [QUOTE; QUOTE; QUOTE] ++ [LF]
    ++ [LF]
    ++ js "Answer as markdown (including related code snippets if available):".
Proof. vm_compute. reflexivity. Qed.

(** * Further properties of the handler *)

(** ** The normalised query *)

Lemma dropWhile_span {A : Type} (p : A -> bool) (l : list A) :
  exists pre, l = pre ++ dropWhile p l /\ forallb p pre = true.
Proof.
  induction l as [|x l [pre [IH Hpre]]]; simpl.
  - exists []. split; reflexivity.
  - destruct (p x) eqn:E.
    + exists (x :: pre). simpl. rewrite E, Hpre. split; [f_equal; exact IH | reflexivity].
    + exists []. split; reflexivity.
Qed.

Lemma dropWhile_all {A : Type} (p : A -> bool) (l : list A) :
  forallb p l = true -> dropWhile p l = [].
Proof.
  induction l as [|x l IH]; simpl; [reflexivity|].
  intros H. apply andb_prop in H. destruct H as [Hx Hl]. rewrite Hx. exact (IH Hl).
Qed.

Lemma forallb_rev {A : Type} (p : A -> bool) (l : list A) :
  forallb p l = true -> forallb p (rev l) = true.
Proof.
  rewrite !forallb_forall. intros H x Hx. apply H. apply in_rev. exact Hx.
Qed.

(** [trim] takes white space off the two ends and nothing else. *)
Lemma trim_span (s : jsstring) :
  exists l r, s = l ++ trim s ++ r
              /\ forallb isSpace l = true /\ forallb isSpace r = true.
Proof.
  unfold trim, trimEnd, trimStart.
  destruct (dropWhile_span isSpace s) as [l [Hl Hlsp]].
  set (a := dropWhile isSpace s) in *.
  destruct (dropWhile_span isSpace (rev a)) as [pre [Hpre Hpresp]].
  exists l, (rev pre). split; [|split].
  - rewrite Hl at 1. f_equal.
    rewrite <- rev_app_distr, <- Hpre. symmetry. apply rev_involutive.
  - exact Hlsp.
  - apply forallb_rev. exact Hpresp.
Qed.

Lemma unfold_line_not_LF (c : N) : unfold_line c <> LF.
Proof.
  unfold unfold_line. destruct (c =? LF) eqn:E.
  - discriminate.
  - apply N.eqb_neq. exact E.
Qed.

Lemma isSpace_unfold_line (c : N) : isSpace (unfold_line c) = isSpace c.
Proof.
  unfold unfold_line. destruct (c =? LF) eqn:E; [|reflexivity].
  apply N.eqb_eq in E. subst c. reflexivity.
Qed.

Lemma filter_text_unfold_line (m : jsstring) :
  List.filter (fun c => negb (isSpace c)) (List.map unfold_line m)
  = List.filter (fun c => negb (isSpace c)) m.
Proof.
  induction m as [|c m IH]; [reflexivity|].
  cbn [List.map List.filter]. cbv beta. rewrite isSpace_unfold_line, IH.
  destruct (isSpace c) eqn:E; cbn [negb]; [reflexivity|].
  now rewrite (unfold_line_kept c E).
Qed.

Lemma filter_text_spaces (l : jsstring) :
  forallb isSpace l = true -> List.filter (fun c => negb (isSpace c)) l = [].
Proof.
  induction l as [|c l IH]; [reflexivity|].
  cbn [forallb List.filter]. cbv beta. intros H. apply andb_prop in H.
  destruct H as [Hc Hl]. rewrite Hc. exact (IH Hl).
Qed.

(** X1: the normalised query holds no line feed, has no white space at
    either end, and is never longer than the query. *)
Theorem sanitize_normal_form (query : jsstring) :
  ~ In LF (sanitize query)
  /\ trimmed (sanitize query)
  /\ (length (sanitize query) <= length query)%nat.
Proof.
  split; [|split].
  - unfold sanitize. rewrite replaceAll_LF_SP. intros Hin.
    apply in_map_iff in Hin. destruct Hin as [c [Hc _]].
    exact (unfold_line_not_LF c Hc).
  - apply sanitize_trimmed.
  - unfold sanitize. rewrite replaceAll_LF_SP, length_map.
    destruct (trim_span query) as [l [r [Hs _]]].
    rewrite Hs at 2. rewrite !length_app. lia.
Qed.

(** X2: normalisation changes white space only: the query is the
    normalised part between two runs of white space, that part differs
    from the normalised query only where a line feed became a space, and
    the code units that are not white space are the same, in the same
    order, before and after. *)
Theorem sanitize_keeps_text (query : jsstring) :
  (exists l m r,
      query = l ++ m ++ r
      /\ forallb isSpace l = true /\ forallb isSpace r = true
      /\ sanitize query = List.map unfold_line m)
  /\ List.filter (fun c => negb (isSpace c)) (sanitize query)
     = List.filter (fun c => negb (isSpace c)) query.
Proof.
  destruct (trim_span query) as [l [r [Hs [Hl Hr]]]].
  assert (Hsan : sanitize query = List.map unfold_line (trim query)).
  { unfold sanitize. apply replaceAll_LF_SP. }
  split.
  - exists l, (trim query), r. auto.
  - rewrite Hsan, filter_text_unfold_line. rewrite Hs at 2.
    rewrite !List.filter_app, (filter_text_spaces l Hl), (filter_text_spaces r Hr).
    now rewrite app_nil_r.
Qed.

Lemma map_unfold_line_id (s : jsstring) :
  ~ In LF s -> List.map unfold_line s = s.
Proof.
  induction s as [|c s IH]; [reflexivity|].
  intros Hn. cbn [List.map]. rewrite IH by (intros H; apply Hn; right; exact H).
  f_equal. unfold unfold_line. destruct (c =? LF) eqn:E; [|reflexivity].
  apply N.eqb_eq in E. exfalso. apply Hn. left. exact E.
Qed.

(** X3: the queries that normalisation leaves unchanged are exactly
    those with no white space at either end and no line feed. *)
Theorem sanitize_fixed_point (query : jsstring) :
  sanitize query = query <-> (trimmed query /\ ~ In LF query).
Proof.
  split.
  - intros H. pose proof (sanitize_trimmed query) as Ht.
    assert (Hn : ~ In LF (sanitize query)).
    { unfold sanitize. rewrite replaceAll_LF_SP. intros Hin.
      apply in_map_iff in Hin. destruct Hin as [c [Hc _]].
      exact (unfold_line_not_LF c Hc). }
    rewrite H in Ht, Hn. split; assumption.
  - intros [Ht Hn]. unfold sanitize.
    rewrite replaceAll_LF_SP, (trimmed_trim _ Ht). apply map_unfold_line_id, Hn.
Qed.

Lemma sanitize_fixed_point_witness :
  (trimmed (js "reset my password") /\ ~ In LF (js "reset my password"))
  /\ sanitize (js "reset my password") = js "reset my password".
Proof.
  assert (H : trimmed (js "reset my password") /\ ~ In LF (js "reset my password")).
  { split; [split; reflexivity|].
    intros Hin. vm_compute in Hin. repeat (destruct Hin as [Hin|Hin]; [discriminate|]).
    exact Hin. }
  split; [exact H|].
  apply (proj2 (sanitize_fixed_point (js "reset my password"))). exact H.
Defined.

(** ** More on the context *)

Lemma currentDocument_of_usable (pageSection : PageSection) :
  usable pageSection = true ->
  currentDocument_of pageSection = VStr (document_of pageSection).
Proof.
  unfold usable, currentDocument_of, document_of.
  destruct (content pageSection) as [| |b|x|d|items|fields]; cbn [truthy negb];
    try reflexivity; try discriminate.
  - destruct b; [discriminate | reflexivity].
  - intros H. apply negb_true_iff in H. now rewrite H.
  - destruct d; reflexivity.
Qed.

Lemma context_loop_usable (encode : jsstring -> list jsstring)
      (pageSections : list PageSection) :
  Forall (fun p => usable p = true) pageSections ->
  forall tc ctx,
    context_loop encode pageSections tc ctx
    = context_loop encode (List.map section_of (List.map document_of pageSections)) tc ctx.
Proof.
  induction 1 as [|p ps Hp _ IH]; intros tc ctx; [reflexivity|].
  cbn [List.map context_loop].
  rewrite (currentDocument_of_usable p Hp), currentDocument_of_string.
  destruct (1500 <=? _)%nat; [reflexivity | apply IH].
Qed.

Lemma assemble_context_strings (encode : jsstring -> list jsstring) (docs : list jsstring) :
  assemble_context encode (List.map section_of docs) = Ok (spec_context encode docs).
Proof.
  unfold assemble_context, spec_context, longest_prefix.
  rewrite context_loop_taken, <- longest_under_taken, length_map. reflexivity.
Qed.

(** X4: when every retrieved section has a content that is a string or
    falsy, the assembly does not fail, and the context is the one the
    specification describes for the texts of the sections, a falsy
    content counting as the empty text. *)
Theorem assemble_context_usable
        (encode : jsstring -> list jsstring) (pageSections : list PageSection) :
  Forall (fun p => usable p = true) pageSections ->
  assemble_context encode pageSections
  = Ok (spec_context encode (List.map document_of pageSections)).
Proof.
  intros H. unfold assemble_context. rewrite (context_loop_usable encode _ H).
  apply assemble_context_strings.
Qed.

Lemma assemble_context_usable_witness :
  Forall (fun p => usable p = true) Sample.rows
  /\ assemble_context Sample.encode Sample.rows
     = Ok (spec_context Sample.encode (List.map document_of Sample.rows)).
Proof.
  assert (H : Forall (fun p => usable p = true) Sample.rows).
  { repeat constructor. }
  split; [exact H|].
  apply (assemble_context_usable Sample.encode Sample.rows H).
Defined.

Lemma context_loop_capped (encode : jsstring -> list jsstring)
      (more : list PageSection) (docs : list jsstring) :
  forall tc ctx,
    (tc < cap)%nat ->
    (cap <= tc + list_sum (counts_of encode docs))%nat ->
    context_loop encode (List.map section_of docs ++ more) tc ctx
    = context_loop encode (List.map section_of docs) tc ctx.
Proof.
  induction docs as [|d docs IH]; intros tc ctx Htc Hsum.
  - cbn [counts_of List.map list_sum fold_right] in Hsum. lia.
  - cbn [List.map app context_loop]. rewrite currentDocument_of_string.
    fold cap.
    destruct (Nat.leb_spec cap (tc + length (encode d))) as [Hge|Hlt]; [reflexivity|].
    apply IH; [exact Hlt|].
    cbn [counts_of List.map list_sum fold_right] in Hsum.
    unfold counts_of. unfold list_sum. lia.
Qed.

(** X5: once the sections read so far amount to 1500 tokens or more,
    nothing that follows them is looked at: whatever sections come after,
    well-formed or not, the result of the assembly is the same. *)
Theorem assemble_context_ignores_rest
        (encode : jsstring -> list jsstring)
        (docs : list jsstring) (more : list PageSection) :
  (1500 <= list_sum (counts_of encode docs))%nat ->
  assemble_context encode (List.map section_of docs ++ more)
  = assemble_context encode (List.map section_of docs).
Proof.
  intros H. unfold assemble_context.
  apply context_loop_capped; [unfold cap; lia | exact H].
Qed.

Lemma assemble_context_ignores_rest_witness :
  (1500 <= list_sum (counts_of Sample.encode Fixture.long_docs))%nat
  /\ assemble_context Sample.encode
       (List.map section_of Fixture.long_docs ++ [Fixture.numeric_section])
     = assemble_context Sample.encode (List.map section_of Fixture.long_docs).
Proof.
  assert (H : (1500 <= list_sum (counts_of Sample.encode Fixture.long_docs))%nat).
  { apply Nat.leb_le. vm_compute. reflexivity. }
  split; [exact H|].
  apply (assemble_context_ignores_rest Sample.encode Fixture.long_docs
           [Fixture.numeric_section] H).
Defined.

Lemma context_loop_extends (encode : jsstring -> list jsstring)
      (docs more : list jsstring) :
  forall tc ctx,
  exists c suffix,
    context_loop encode (List.map section_of docs) tc ctx = Ok c
    /\ context_loop encode (List.map section_of (docs ++ more)) tc ctx = Ok (c ++ suffix).
Proof.
  induction docs as [|d docs IH]; intros tc ctx.
  - exists ctx. cbn [app List.map context_loop].
    rewrite context_loop_taken. eexists. split; reflexivity.
  - cbn [app List.map context_loop]. rewrite currentDocument_of_string.
    destruct (1500 <=? _)%nat.
    + exists ctx, []. rewrite app_nil_r. split; reflexivity.
    + apply IH.
Qed.

(** X6: retrieving more sections never changes what the sections before
    them contribute: the context of a sequence of sections is the
    beginning of the context of every sequence that extends it. *)
Theorem assemble_context_extends
        (encode : jsstring -> list jsstring) (docs more : list jsstring) :
  exists c suffix,
    assemble_context encode (List.map section_of docs) = Ok c
    /\ assemble_context encode (List.map section_of (docs ++ more)) = Ok (c ++ suffix).
Proof. apply context_loop_extends. Qed.

Lemma context_loop_bad_section (encode : jsstring -> list jsstring)
      (bad : PageSection) (rest : list PageSection) (docs : list jsstring) :
  truthy (content bad) = true ->
  (forall d, content bad <> VStr d) ->
  forall tc ctx,
    (tc + list_sum (counts_of encode docs) < cap)%nat ->
    context_loop encode (List.map section_of docs ++ bad :: rest) tc ctx = Throw TypeError.
Proof.
  intros Ht Hns. induction docs as [|d docs IH]; intros tc ctx Hsum.
  - cbn [List.map app context_loop]. unfold currentDocument_of. rewrite Ht.
    destruct (content bad); try reflexivity. exfalso. eapply Hns. reflexivity.
  - cbn [List.map app context_loop]. rewrite currentDocument_of_string.
    cbn [counts_of List.map list_sum fold_right] in Hsum. fold cap.
    destruct (Nat.leb_spec cap (tc + length (encode d))) as [Hge|Hlt]; [lia|].
    apply IH. unfold counts_of, list_sum. lia.
Qed.

(** X7: a section whose content is truthy but not a string makes the
    assembly throw a [TypeError] whenever the loop reaches it, that is,
    when the sections before it stay under 1500 tokens together. *)
Theorem assemble_context_bad_section
        (encode : jsstring -> list jsstring)
        (docs : list jsstring) (bad : PageSection) (rest : list PageSection) :
  truthy (content bad) = true ->
  (forall d, content bad <> VStr d) ->
  (list_sum (counts_of encode docs) < 1500)%nat ->
  assemble_context encode (List.map section_of docs ++ bad :: rest) = Throw TypeError.
Proof.
  intros Ht Hns Hsum. unfold assemble_context.
  apply context_loop_bad_section; [exact Ht | exact Hns | unfold cap; lia].
Qed.

Lemma assemble_context_bad_section_witness :
  truthy (content Fixture.numeric_section) = true
  /\ (forall d, content Fixture.numeric_section <> VStr d)
  /\ (list_sum (counts_of Sample.encode [js "abc"]) < 1500)%nat
  /\ assemble_context Sample.encode
       (List.map section_of [js "abc"] ++ Fixture.numeric_section :: [])
     = Throw TypeError.
Proof.
  assert (H1 : truthy (content Fixture.numeric_section) = true) by reflexivity.
  assert (H2 : forall d, content Fixture.numeric_section <> VStr d)
    by (intros d; discriminate).
  assert (H3 : (list_sum (counts_of Sample.encode [js "abc"]) < 1500)%nat)
    by (apply Nat.ltb_lt; vm_compute; reflexivity).
  split; [exact H1|]. split; [exact H2|]. split; [exact H3|].
  apply (assemble_context_bad_section Sample.encode [js "abc"]
           Fixture.numeric_section [] H1 H2 H3).
Defined.

(** ** Every run of the handler *)

Lemma AlwaysRun_run {A : Type} (P : list Call -> A -> Prop) (p : Prog A) :
  AlwaysRun P p -> forall w, P (fst (run w p)) (snd (run w p)).
Proof.
  induction 1 as [P a Ha | P X e k _ IH]; intros w; [exact Ha|].
  cbn [run]. specialize (IH (w _ e) w). destruct (run w (k (w X e))). exact IH.
Qed.

Lemma AlwaysRun_await {X A : Type} (P : list Call -> Result A -> Prop)
      (e : Eff (Settled X)) (k : X -> Async A) (h : JsError -> Async A) :
  (forall x, AlwaysRun (fun t a => P (call e :: t) a) (try_catch (k x) h)) ->
  (forall reason, AlwaysRun (fun t a => P (call e :: t) a) (h (Rejection reason))) ->
  AlwaysRun P (try_catch (bind (await e) k) h).
Proof. intros Hk Hh. cbn. constructor. intros [x|reason]; [apply Hk | apply Hh]. Qed.

(** The loop throws nothing but a [TypeError]. *)
Lemma context_loop_throws (encode : jsstring -> list jsstring)
      (pageSections : list PageSection) :
  forall tc ctx e, context_loop encode pageSections tc ctx = Throw e -> e = TypeError.
Proof.
  induction pageSections as [|p ps IH]; intros tc ctx e; cbn [context_loop].
  - discriminate.
  - destruct (currentDocument_of p); try (intros H; injection H as <-; reflexivity).
    destruct (1500 <=? _)%nat; [discriminate | apply IH].
Qed.

(** One step through the tree of the handler. *)
Ltac walk_step :=
  match goal with
  | |- AlwaysRun _ (Ret _) => apply AlwaysRun_Ret
  | |- AlwaysRun _ (ret _) => unfold ret
  | |- AlwaysRun _ (throw _) => unfold throw
  | |- AlwaysRun _ (try_catch (bind (await _) _) _) => apply AlwaysRun_await; intros ?
  | |- AlwaysRun _ (Vis _ _) => apply AlwaysRun_Vis; intros ?
  | |- AlwaysRun _ (try_catch (if ?x then _ else _) _) => destruct x eqn:?
  | |- AlwaysRun _ (try_catch (match ?x with _ => _ end) _) => destruct x eqn:?
  | |- AlwaysRun _ (try_catch (bind (lift (assemble_context ?f ?l)) _) _) =>
      let H := fresh "Hctx" in
      let err := fresh "err" in
      destruct (assemble_context f l) as [?|err] eqn:H;
      [| apply context_loop_throws in H; subst err]
  | |- AlwaysRun _ (match embedding_json ?r with _ => _ end) =>
      destruct (embedding_json r) eqn:?
  | |- AlwaysRun _ (match match embedding_json ?r with _ => _ end with _ => _ end) =>
      destruct (embedding_json r) eqn:?
  | |- AlwaysRun _ _ =>
      progress cbn [try_catch throw ret lift bind perform error_boundary JSON_stringify]
  end.

Ltac nodup_kinds :=
  repeat match goal with
         | |- List.NoDup (_ :: _) =>
             constructor;
             [cbn [In]; let H := fresh in
                        intros H; repeat (destruct H as [H|H]; [discriminate|]);
                        exact H |]
         | |- List.NoDup [] => constructor
         end.

Ltac failure_after n :=
  right; right; right; left;
  split; [reflexivity | exists n; split; [lia | reflexivity]].

(** One step through a run of the handler against a world. *)
Ltac run_step :=
  match goal with
  | |- context [run ?w (try_catch (bind (await ?e) ?k) ?h)] =>
      rewrite (run_try_await w e k h); destruct (w _ e) eqn:?
  | |- context [run _ (try_catch (if ?x then _ else _) _)] => destruct x eqn:?
  | |- context [run _ (try_catch (match ?x with _ => _ end) _)] => destruct x eqn:?
  | |- context [run _ (try_catch (bind (lift (assemble_context ?f ?l)) _) _)] =>
      let H := fresh "Hctx" in
      let err := fresh "err" in
      destruct (assemble_context f l) as [?|err] eqn:H;
      [| apply context_loop_throws in H; subst err]
  | |- context [run _ (match embedding_json ?r with _ => _ end)] =>
      destruct (embedding_json r) eqn:?
  | |- context [run _ (match match embedding_json ?r with _ => _ end with _ => _ end)] =>
      destruct (embedding_json r) eqn:?
  | |- context [run _ _] =>
      progress cbn [run try_catch throw ret lift bind perform error_boundary
                    JSON_stringify fst snd]
  end.

(** A kind that is not in a list of kinds. *)
Ltac absent H :=
  cbn [In] in H; repeat (destruct H as [H|H]; [discriminate|]); contradiction.

Section Runs.

Variable ensureGetEnv : string -> jsstring.
Variable tokenizer_encode : jsstring -> list jsstring.
Variables codeBlock oneLine : TemplateTag.

Local Abbreviation serve := (handler ensureGetEnv tokenizer_encode codeBlock oneLine).

Lemma handler_shape (req : Request) :
  AlwaysRun (fun t resp => run_shape (List.map kind_of t) resp) (serve req).
Proof.
  unfold handler, pipeline. repeat walk_step.
  all: unfold run_shape; cbn [List.map kind_of].
  all: first [ left; split; [reflexivity | first [left; reflexivity | right; reflexivity]]
             | right; left; split; [reflexivity | eexists; reflexivity]
             | right; right; left; split; [reflexivity | eexists; reflexivity]
             | failure_after 1%nat | failure_after 2%nat | failure_after 3%nat
             | failure_after 4%nat | failure_after 5%nat
             | right; right; right; right; split; reflexivity ].
Qed.

(** X8: every run of the handler goes one of five ways: no call at all
    and the answer to the preflight or to the missing query; the
    moderation call alone and the 400 of a flagged verdict; the four
    collaborators in order and the stream passed on; a beginning of the
    pipeline (one to five calls), one line in the log, and the generic
    failure; or, when the embedding call has failed with a response
    object that [JSON.stringify] cannot serialise, the moderation and
    embedding calls, nothing in the log, and a [TypeError] thrown in
    place of a response. *)
Theorem every_run_has_shape (w : World) (req : Request) :
  run_shape (List.map kind_of (fst (run w (serve req)))) (snd (run w (serve req))).
Proof. exact (AlwaysRun_run _ _ (handler_shape req) w). Qed.

(** X9: the status of every response is 200, 400 or 500; a response
    with status 500 is the generic failure, with nothing of the cause in
    it; and the handler writes to the log exactly in the runs that end
    with status 500, so user errors are never logged. *)
Theorem failures_generic_and_logged (w : World) (req : Request) (resp : Response) :
  snd (run w (serve req)) = Ok resp ->
  let kinds := List.map kind_of (fst (run w (serve req))) in
  (status resp = 200%Z \/ status resp = 400%Z \/ status resp = 500%Z)
  /\ (status resp = 500%Z -> resp = generic_failure)
  /\ (In KLog kinds <-> status resp = 500%Z).
Proof.
  intros Hresp kinds.
  destruct (AlwaysRun_run _ _ (handler_shape req) w)
    as [[Hk [Hr|Hr]] | [[Hk [v Hr]] | [[Hk [s Hr]] | [[Hr [n [Hn Hk]]] | [_ Hr]]]]];
    try fold kinds in Hk; rewrite Hresp in Hr; try discriminate;
    injection Hr as ->; rewrite Hk.
  - split; [left; reflexivity|]. split; [discriminate|]. split; [intros []|discriminate].
  - split; [right; left; reflexivity|]. split; [discriminate|].
    split; [intros []|discriminate].
  - split; [right; left; reflexivity|]. split; [discriminate|].
    split; [intros [H|[]]; discriminate | discriminate].
  - split; [left; reflexivity|]. split; [discriminate|].
    split; [|discriminate]. cbn [In]. intros H. decompose [or] H; discriminate || contradiction.
  - split; [right; right; reflexivity|]. split; [reflexivity|].
    split; [reflexivity|]. intros _. apply in_or_app. right. left. reflexivity.
Qed.

(** X10: no collaborator is called twice in a run, and the calls other
    than the log come in the order of the pipeline: moderation,
    embedding, retrieval, completion, reading of the completion error. *)
Theorem collaborators_once_in_order (w : World) (req : Request) :
  let kinds := List.map kind_of (fst (run w (serve req))) in
  List.NoDup kinds
  /\ exists n, (n <= 5)%nat
               /\ (kinds = firstn n pipeline_order
                   \/ kinds = firstn n pipeline_order ++ [KLog]).
Proof.
  intros kinds.
  destruct (AlwaysRun_run _ _ (handler_shape req) w)
    as [[Hk _] | [[Hk _] | [[Hk _] | [[_ [n [Hn Hk]]] | [Hk _]]]]];
    fold kinds in Hk; rewrite Hk.
  - split; [nodup_kinds|]. exists 0%nat. split; [lia | left; reflexivity].
  - split; [nodup_kinds|]. exists 1%nat. split; [lia | left; reflexivity].
  - split; [nodup_kinds|]. exists 4%nat. split; [lia | left; reflexivity].
  - split; [|exists n; split; [lia | right; reflexivity]].
    assert (Hcase : (n = 1 \/ n = 2 \/ n = 3 \/ n = 4 \/ n = 5)%nat) by lia.
    destruct Hcase as [->|[->|[->|[->| ->]]]];
      cbn [firstn pipeline_order app]; nodup_kinds.
  - split; [nodup_kinds|]. exists 2%nat. split; [lia | left; reflexivity].
Qed.

(** X11: whatever the collaborators answer, the moderation and the
    embedding services are given the normalised query and nothing else,
    and the completion request carries the query as it came as its user
    message. *)
Theorem collaborators_get_normalized_query (w : World) (req : Request) (query : jsstring) :
  searchParams_get "query" (searchParams req) = Some query ->
  Forall (call_carries query) (fst (run w (serve req))).
Proof.
  intros Hq.
  assert (H : AlwaysRun (fun t _ => Forall (call_carries query) t) (serve req)).
  { unfold handler, pipeline. rewrite Hq. repeat walk_step.
    all: repeat constructor. }
  exact (AlwaysRun_run _ _ H w).
Qed.

(** X12: a call is made only when the stages before it have succeeded:
    the embedding service is called only if moderation answered with an
    unflagged first verdict, the store only if the embedding service
    answered with status 200 and an embedding, the completion service
    only if the store answered without error and the context could be
    assembled. *)
Theorem later_calls_need_earlier_success (w : World) (req : Request) (query : jsstring) :
  searchParams_get "query" (searchParams req) = Some query ->
  let kinds := List.map kind_of (fst (run w (serve req))) in
  (In KEmbedding kinds -> moderation_passes w query)
  /\ (In KRpc kinds ->
      exists item,
        embedding_succeeds w (OPENAI_EMBEDDINGS_MODEL ensureGetEnv) query item)
  /\ (In KFetch kinds ->
      exists item pageSections contextText,
        retrieval_succeeds w item pageSections
        /\ assemble_context tokenizer_encode pageSections = Ok contextText).
Proof.
  intros Hq. unfold handler, pipeline. rewrite Hq.
  repeat run_step.
  all: cbn [List.map kind_of].
  all: repeat match goal with
              | H : negb _ = false |- _ => apply negb_false_iff in H
              end.
  all: split; [|split]; intros Hin; try (absent Hin).
  all: unfold moderation_passes, embedding_succeeds, retrieval_succeeds;
    repeat eexists; eassumption.
Qed.

End Runs.

(** ** The stages of the pipeline *)

Section Stages.

Variable ensureGetEnv : string -> jsstring.
Variable tokenizer_encode : jsstring -> list jsstring.
Variables codeBlock oneLine : TemplateTag.

Local Abbreviation serve := (handler ensureGetEnv tokenizer_encode codeBlock oneLine).
Local Abbreviation model := (OPENAI_EMBEDDINGS_MODEL ensureGetEnv).
Local Abbreviation endpoint := (OPENAI_COMPLETIONS_ENDPOINT ensureGetEnv).
Local Abbreviation request_for :=
  (fun contextText query : jsstring =>
     completion_request ensureGetEnv
       (prompt codeBlock oneLine contextText (sanitize query)) query).

(** X13: when every stage succeeds and the completion service answers
    with an OK status, the handler makes the four calls in order, writes
    nothing to the log, and answers with status 200, content type
    [text/event-stream] and, as its body, the very stream of the
    completion response; the completion request is a POST asking for a
    streamed answer of at most 512 tokens at temperature 0. *)
Theorem success_passes_stream_on
        (w : World) (req : Request) (query : jsstring)
        (item : EmbeddingItem) (pageSections : list PageSection)
        (contextText : jsstring) (response : FetchResponse) :
  method req <> "OPTIONS"%string ->
  searchParams_get "query" (searchParams req) = Some query ->
  query <> [] ->
  moderation_passes w query ->
  embedding_succeeds w model query item ->
  retrieval_succeeds w item pageSections ->
  assemble_context tokenizer_encode pageSections = Ok contextText ->
  w _ (fetch endpoint (request_for contextText query)) = Fulfilled response ->
  ok response = true ->
  run w (serve req)
  = ([call (createModeration (sanitize query));
      call (createEmbedding model (sanitize query));
      call (rpc (js "match_page_sections") (match_args (embedding item)));
      call (fetch endpoint (request_for contextText query))],
     Ok (stream_response (response_body response)))
  /\ status (stream_response (response_body response)) = 200%Z
  /\ body (stream_response (response_body response)) = BodyStream (response_body response)
  /\ Headers_get "Content-Type" (headers (stream_response (response_body response)))
     = Some (js "text/event-stream")
  /\ fetch_method (request_for contextText query) = "POST"%string
  /\ prop "max_tokens" (fetch_body (request_for contextText query)) = VNum 512%float
  /\ prop "temperature" (fetch_body (request_for contextText query)) = VNum 0%float
  /\ prop "stream" (fetch_body (request_for contextText query)) = VBool true.
Proof.
  intros Hm Hq Hne (mr & verdict & others & Hmod & Hres & Hflag)
         (er & items & Hemb & Hstatus & Hdata) (matched & Hrpc & Herr & Hrows)
         Hctx Hfetch Hok.
  destruct query as [|c query]; [congruence|].
  split; [|repeat split].
  unfold handler, pipeline. rewrite (not_options _ Hm), Hq.
  rewrite run_try_await, Hmod, Hres, Hflag, run_try_await, Hemb, Hstatus.
  cbn [negb]. rewrite Hdata, run_try_await, Hrpc, Herr, Hrows, Hctx.
  cbn [lift bind]. rewrite run_try_await, Hfetch, Hok.
  reflexivity.
Qed.

(** X14: when the store reports an error, the handler does not call the
    completion service: it logs "Failed to match page sections" with the
    error and answers with the generic failure. *)
Theorem retrieval_failure_generic
        (w : World) (req : Request) (query : jsstring)
        (item : EmbeddingItem) (matched : RpcResult) :
  method req <> "OPTIONS"%string ->
  searchParams_get "query" (searchParams req) = Some query ->
  query <> [] ->
  moderation_passes w query ->
  embedding_succeeds w model query item ->
  w _ (rpc (js "match_page_sections") (match_args (embedding item))) = Fulfilled matched ->
  truthy (rpc_error matched) = true ->
  run w (serve req)
  = ([call (createModeration (sanitize query));
      call (createEmbedding model (sanitize query));
      call (rpc (js "match_page_sections") (match_args (embedding item)));
      call (console_error (LogLine (js "Failed to match page sections")
                                   (rpc_error matched)))],
     Ok generic_failure).
Proof.
  intros Hm Hq Hne (mr & verdict & others & Hmod & Hres & Hflag)
         (er & items & Hemb & Hstatus & Hdata) Hrpc Herr.
  destruct query as [|c query]; [congruence|].
  unfold handler, pipeline. rewrite (not_options _ Hm), Hq.
  rewrite run_try_await, Hmod, Hres, Hflag, run_try_await, Hemb, Hstatus.
  cbn [negb]. rewrite Hdata, run_try_await, Hrpc, Herr.
  reflexivity.
Qed.

(** X15: when the completion service answers with a status that is not
    OK, the handler reads the JSON body of the answer, logs it under
    "Failed to generate completion", and answers with the generic
    failure: nothing of the provider's answer reaches the caller. *)
Theorem completion_failure_generic
        (w : World) (req : Request) (query : jsstring)
        (item : EmbeddingItem) (pageSections : list PageSection)
        (contextText : jsstring) (response : FetchResponse) (error : JsVal) :
  method req <> "OPTIONS"%string ->
  searchParams_get "query" (searchParams req) = Some query ->
  query <> [] ->
  moderation_passes w query ->
  embedding_succeeds w model query item ->
  retrieval_succeeds w item pageSections ->
  assemble_context tokenizer_encode pageSections = Ok contextText ->
  w _ (fetch endpoint (request_for contextText query)) = Fulfilled response ->
  ok response = false ->
  w _ (response_json response) = Fulfilled error ->
  run w (serve req)
  = ([call (createModeration (sanitize query));
      call (createEmbedding model (sanitize query));
      call (rpc (js "match_page_sections") (match_args (embedding item)));
      call (fetch endpoint (request_for contextText query));
      call (response_json response);
      call (console_error (LogLine (js "Failed to generate completion") error))],
     Ok generic_failure).
Proof.
  intros Hm Hq Hne (mr & verdict & others & Hmod & Hres & Hflag)
         (er & items & Hemb & Hstatus & Hdata) (matched & Hrpc & Herr & Hrows)
         Hctx Hfetch Hok Hjson.
  destruct query as [|c query]; [congruence|].
  unfold handler, pipeline. rewrite (not_options _ Hm), Hq.
  rewrite run_try_await, Hmod, Hres, Hflag, run_try_await, Hemb, Hstatus.
  cbn [negb]. rewrite Hdata, run_try_await, Hrpc, Herr, Hrows, Hctx.
  cbn [lift bind]. rewrite run_try_await, Hfetch, Hok.
  cbn [negb]. rewrite run_try_await, Hjson.
  reflexivity.
Qed.

(** X16: when the moderation call itself fails (its promise is
    rejected), the handler makes no further call to a collaborator: it
    logs the reason as it is and answers with the generic failure. *)
Theorem moderation_rejection_generic
        (w : World) (req : Request) (query : jsstring) (reason : JsVal) :
  method req <> "OPTIONS"%string ->
  searchParams_get "query" (searchParams req) = Some query ->
  query <> [] ->
  w _ (createModeration (sanitize query)) = Rejected reason ->
  run w (serve req)
  = ([call (createModeration (sanitize query));
      call (console_error (LogThrown (Rejection reason)))],
     Ok generic_failure).
Proof.
  intros Hm Hq Hne Hmod.
  destruct query as [|c query]; [congruence|].
  unfold handler, pipeline. rewrite (not_options _ Hm), Hq.
  rewrite run_try_await, Hmod. reflexivity.
Qed.

(** X17: a query made of white space only is not taken for a missing
    query: it passes the gate, is normalised to the empty string, and the
    first thing the handler does is to ask the moderation service about
    the empty string. *)
Theorem blank_query_reaches_moderation
        (w : World) (req : Request) (query : jsstring) :
  method req <> "OPTIONS"%string ->
  searchParams_get "query" (searchParams req) = Some query ->
  query <> [] ->
  forallb isSpace query = true ->
  sanitize query = []
  /\ exists rest, fst (run w (serve req)) = call (createModeration []) :: rest.
Proof.
  intros Hm Hq Hne Hblank.
  assert (Hs : sanitize query = []).
  { unfold sanitize, trim, trimStart, trimEnd.
    rewrite (dropWhile_all _ _ Hblank). reflexivity. }
  split; [exact Hs|].
  destruct query as [|c query]; [congruence|].
  unfold handler, pipeline. rewrite (not_options _ Hm), Hq, Hs.
  rewrite run_try_await.
  destruct (run w _) as [t a]. exists t. reflexivity.
Qed.

Lemma or_else_configured (name : string) (fallback : jsstring) :
  fallback <> [] ->
  or_else (ensureGetEnv name) fallback = configured ensureGetEnv name fallback
  /\ or_else (ensureGetEnv name) fallback <> [].
Proof.
  intros Hf. unfold or_else, configured.
  destruct (ensureGetEnv name) as [|c value]; cbn [truthy_string].
  - split; [reflexivity | exact Hf].
  - split; [reflexivity | discriminate].
Qed.

(** X18: whatever the environment holds and whatever the collaborators
    answer, every embedding call names the model of
    [OPENAI_EMBEDDINGS_MODEL], or [text-embedding-ada-002] when that
    variable is empty; every completion request goes to the endpoint of
    [OPENAI_COMPLETIONS_ENDPOINT], or
    [https://api.openai.com/v1/chat/completions] when that is empty,
    names the model of [OPENAI_COMPLETIONS_MODEL], or [gpt-3.5-turbo]
    when that is empty, and carries the key of [OPENAI_API_KEY] as a
    bearer token; the model and the endpoint of a call are never
    empty. *)
Theorem calls_are_configured (w : World) (req : Request) :
  Forall (call_configured ensureGetEnv) (fst (run w (serve req))).
Proof.
  assert (Hmodel : forall input,
             call_configured ensureGetEnv (call (createEmbedding model input))).
  { intros input. apply or_else_configured. discriminate. }
  assert (Hurl : forall contextText query,
             call_configured ensureGetEnv
               (call (fetch endpoint (request_for contextText query)))).
  { intros contextText query. cbn [call_configured].
    destruct (or_else_configured "OPENAI_COMPLETIONS_ENDPOINT"
                (js "https://api.openai.com/v1/chat/completions")) as [Hu Hn];
      [discriminate|].
    destruct (or_else_configured "OPENAI_COMPLETIONS_MODEL" (js "gpt-3.5-turbo"))
      as [Hc _]; [discriminate|].
    split; [exact Hu|]. split; [exact Hn|]. split; [|reflexivity].
    unfold OPENAI_COMPLETIONS_MODEL in *. rewrite <- Hc. reflexivity. }
  assert (H : AlwaysRun (fun t _ => Forall (call_configured ensureGetEnv) t) (serve req)).
  { unfold handler, pipeline. repeat walk_step.
    all: repeat (constructor; [first [exact I | apply Hmodel | apply Hurl]|]);
      constructor. }
  exact (AlwaysRun_run _ _ H w).
Qed.

(** X19: the handler looks at nothing in a request but whether its
    method is [OPTIONS] and the first value of its [query] parameter:
    two requests that agree on these are handled alike, so every other
    method is treated as [GET], and other parameters and later values of
    [query] are ignored. *)
Theorem handler_reads_method_and_query (req req' : Request) :
  String.eqb (method req) "OPTIONS" = String.eqb (method req') "OPTIONS" ->
  searchParams_get "query" (searchParams req)
  = searchParams_get "query" (searchParams req') ->
  serve req = serve req'.
Proof.
  intros Hm Hq. unfold handler, pipeline. rewrite Hm, Hq. reflexivity.
Qed.

(** X20: the content type of every response agrees with its body
    ([text/event-stream] for the stream, [application/json] for the JSON
    answers, plain text for the preflight), and every response lists the
    request headers it allows. *)
Theorem every_response_content_type (w : World) (req : Request) (resp : Response) :
  snd (run w (serve req)) = Ok resp ->
  Headers_get "Content-Type" (headers resp) = Some (content_type_of (body resp))
  /\ Headers_get "Access-Control-Allow-Headers" (headers resp)
     = Some (js "authorization, x-client-info, apikey, content-type").
Proof.
  intros Hresp.
  destruct (AlwaysRun_run _ _
              (handler_shape ensureGetEnv tokenizer_encode codeBlock oneLine req) w)
    as [[_ [Hr|Hr]] | [[_ [v Hr]] | [[_ [s Hr]] | [[Hr _] | [_ Hr]]]]];
    rewrite Hresp in Hr; try discriminate;
    injection Hr as ->; split; vm_compute; reflexivity.
Qed.

End Stages.

(** ** The stages on sample requests *)

Lemma collaborators_get_normalized_query_witness :
  searchParams_get "query" (searchParams Sample.request) = Some Sample.raw_query
  /\ Forall (call_carries Sample.raw_query)
            (fst (run Sample.quiet_world (Sample.handler Sample.request))).
Proof.
  split; [reflexivity|].
  apply (collaborators_get_normalized_query Sample.env Sample.encode
           CommonTags.codeBlock CommonTags.oneLine
           Sample.quiet_world Sample.request Sample.raw_query).
  reflexivity.
Defined.

Lemma later_calls_need_earlier_success_witness :
  searchParams_get "query" (searchParams Sample.request) = Some Sample.raw_query
  /\ In KEmbedding
        (List.map kind_of (fst (run Sample.quiet_world (Sample.handler Sample.request))))
  /\ moderation_passes Sample.quiet_world Sample.raw_query.
Proof.
  split; [reflexivity|].
  assert (Hin : In KEmbedding
                   (List.map kind_of
                      (fst (run Sample.quiet_world (Sample.handler Sample.request))))).
  { vm_compute. right. left. reflexivity. }
  split; [exact Hin|].
  apply (later_calls_need_earlier_success Sample.env Sample.encode
           CommonTags.codeBlock CommonTags.oneLine
           Sample.quiet_world Sample.request Sample.raw_query);
    [reflexivity | exact Hin].
Defined.

Lemma success_passes_stream_on_witness :
  method Sample.request <> "OPTIONS"%string
  /\ searchParams_get "query" (searchParams Sample.request) = Some Sample.raw_query
  /\ Sample.raw_query <> []
  /\ moderation_passes Sample.quiet_world Sample.raw_query
  /\ embedding_succeeds Sample.quiet_world (OPENAI_EMBEDDINGS_MODEL Sample.env)
       Sample.raw_query Fixture.item
  /\ retrieval_succeeds Sample.quiet_world Fixture.item Sample.rows
  /\ assemble_context Sample.encode Sample.rows = Ok Fixture.context
  /\ ok Fixture.streaming = true
  /\ snd (run Sample.quiet_world (Sample.handler Sample.request))
     = Ok (stream_response Sample.stream).
Proof.
  assert (Hmod : moderation_passes Sample.quiet_world Sample.raw_query).
  { do 3 eexists. repeat split; reflexivity. }
  assert (Hemb : embedding_succeeds Sample.quiet_world (OPENAI_EMBEDDINGS_MODEL Sample.env)
                   Sample.raw_query Fixture.item).
  { do 2 eexists. repeat split; reflexivity. }
  assert (Hrpc : retrieval_succeeds Sample.quiet_world Fixture.item Sample.rows).
  { eexists. repeat split; reflexivity. }
  split; [discriminate|]. split; [reflexivity|]. split; [discriminate|].
  split; [exact Hmod|]. split; [exact Hemb|]. split; [exact Hrpc|].
  split; [reflexivity|]. split; [reflexivity|].
  destruct (success_passes_stream_on Sample.env Sample.encode
              CommonTags.codeBlock CommonTags.oneLine
              Sample.quiet_world Sample.request Sample.raw_query
              Fixture.item Sample.rows Fixture.context Fixture.streaming)
    as [Hrun _];
    [discriminate | reflexivity | discriminate | exact Hmod | exact Hemb | exact Hrpc
     | reflexivity | reflexivity | reflexivity |].
  unfold Sample.handler. rewrite Hrun. reflexivity.
Defined.

Lemma retrieval_failure_generic_witness :
  method Sample.request <> "OPTIONS"%string
  /\ searchParams_get "query" (searchParams Sample.request) = Some Sample.raw_query
  /\ Sample.raw_query <> []
  /\ moderation_passes Fixture.store_down Sample.raw_query
  /\ embedding_succeeds Fixture.store_down (OPENAI_EMBEDDINGS_MODEL Sample.env)
       Sample.raw_query Fixture.item
  /\ truthy Fixture.store_error = true
  /\ snd (run Fixture.store_down (Sample.handler Sample.request)) = Ok generic_failure.
Proof.
  assert (Hmod : moderation_passes Fixture.store_down Sample.raw_query).
  { do 3 eexists. repeat split; reflexivity. }
  assert (Hemb : embedding_succeeds Fixture.store_down (OPENAI_EMBEDDINGS_MODEL Sample.env)
                   Sample.raw_query Fixture.item).
  { do 2 eexists. repeat split; reflexivity. }
  split; [discriminate|]. split; [reflexivity|]. split; [discriminate|].
  split; [exact Hmod|]. split; [exact Hemb|]. split; [reflexivity|].
  unfold Sample.handler.
  rewrite (retrieval_failure_generic Sample.env Sample.encode
             CommonTags.codeBlock CommonTags.oneLine
             Fixture.store_down Sample.request Sample.raw_query Fixture.item
             {| rpc_error := Fixture.store_error; rpc_data := None |});
    [reflexivity | discriminate | reflexivity | discriminate | exact Hmod | exact Hemb
     | reflexivity | reflexivity].
Defined.

Lemma completion_failure_generic_witness :
  method Sample.request <> "OPTIONS"%string
  /\ searchParams_get "query" (searchParams Sample.request) = Some Sample.raw_query
  /\ Sample.raw_query <> []
  /\ moderation_passes Fixture.completion_down Sample.raw_query
  /\ embedding_succeeds Fixture.completion_down (OPENAI_EMBEDDINGS_MODEL Sample.env)
       Sample.raw_query Fixture.item
  /\ retrieval_succeeds Fixture.completion_down Fixture.item Sample.rows
  /\ assemble_context Sample.encode Sample.rows = Ok Fixture.context
  /\ ok Fixture.refused = false
  /\ snd (run Fixture.completion_down (Sample.handler Sample.request))
     = Ok generic_failure.
Proof.
  assert (Hmod : moderation_passes Fixture.completion_down Sample.raw_query).
  { do 3 eexists. repeat split; reflexivity. }
  assert (Hemb : embedding_succeeds Fixture.completion_down
                   (OPENAI_EMBEDDINGS_MODEL Sample.env) Sample.raw_query Fixture.item).
  { do 2 eexists. repeat split; reflexivity. }
  assert (Hrpc : retrieval_succeeds Fixture.completion_down Fixture.item Sample.rows).
  { eexists. repeat split; reflexivity. }
  split; [discriminate|]. split; [reflexivity|]. split; [discriminate|].
  split; [exact Hmod|]. split; [exact Hemb|]. split; [exact Hrpc|].
  split; [reflexivity|]. split; [reflexivity|].
  unfold Sample.handler.
  rewrite (completion_failure_generic Sample.env Sample.encode
             CommonTags.codeBlock CommonTags.oneLine
             Fixture.completion_down Sample.request Sample.raw_query
             Fixture.item Sample.rows Fixture.context Fixture.refused
             Fixture.provider_error);
    [reflexivity | discriminate | reflexivity | discriminate | exact Hmod | exact Hemb
     | exact Hrpc | reflexivity | reflexivity | reflexivity | reflexivity].
Defined.

Lemma moderation_rejection_generic_witness :
  method Sample.request <> "OPTIONS"%string
  /\ searchParams_get "query" (searchParams Sample.request) = Some Sample.raw_query
  /\ Sample.raw_query <> []
  /\ Fixture.moderation_down _ (createModeration (sanitize Sample.raw_query))
     = Rejected (VStr (js "network"))
  /\ run Fixture.moderation_down (Sample.handler Sample.request)
     = ([call (createModeration (sanitize Sample.raw_query));
         call (console_error (LogThrown (Rejection (VStr (js "network")))))],
        Ok generic_failure).
Proof.
  split; [discriminate|]. split; [reflexivity|]. split; [discriminate|].
  split; [reflexivity|].
  apply (moderation_rejection_generic Sample.env Sample.encode
           CommonTags.codeBlock CommonTags.oneLine
           Fixture.moderation_down Sample.request Sample.raw_query
           (VStr (js "network")));
    [discriminate | reflexivity | discriminate | reflexivity].
Defined.

Lemma blank_query_reaches_moderation_witness :
  method (Sample.get Fixture.blank_query) <> "OPTIONS"%string
  /\ searchParams_get "query" (searchParams (Sample.get Fixture.blank_query))
     = Some Fixture.blank_query
  /\ Fixture.blank_query <> []
  /\ forallb isSpace Fixture.blank_query = true
  /\ sanitize Fixture.blank_query = []
  /\ exists rest,
       fst (run Sample.quiet_world (Sample.handler (Sample.get Fixture.blank_query)))
       = call (createModeration []) :: rest.
Proof.
  split; [discriminate|]. split; [reflexivity|]. split; [discriminate|].
  split; [reflexivity|].
  apply (blank_query_reaches_moderation Sample.env Sample.encode
           CommonTags.codeBlock CommonTags.oneLine
           Sample.quiet_world (Sample.get Fixture.blank_query) Fixture.blank_query);
    [discriminate | reflexivity | discriminate | reflexivity].
Defined.

Lemma handler_reads_method_and_query_witness :
  String.eqb (method Sample.request) "OPTIONS"
  = String.eqb (method Fixture.crowded_request) "OPTIONS"
  /\ searchParams_get "query" (searchParams Sample.request)
     = searchParams_get "query" (searchParams Fixture.crowded_request)
  /\ Sample.handler Sample.request = Sample.handler Fixture.crowded_request.
Proof.
  split; [reflexivity|]. split; [reflexivity|].
  apply (handler_reads_method_and_query Sample.env Sample.encode
           CommonTags.codeBlock CommonTags.oneLine
           Sample.request Fixture.crowded_request); reflexivity.
Defined.

Lemma failures_generic_and_logged_witness :
  snd (run Fixture.store_down (Sample.handler Sample.request)) = Ok generic_failure
  /\ (status generic_failure = 500%Z -> generic_failure = generic_failure)
  /\ (In KLog (List.map kind_of
                 (fst (run Fixture.store_down (Sample.handler Sample.request))))
      <-> status generic_failure = 500%Z).
Proof.
  assert (H : snd (run Fixture.store_down (Sample.handler Sample.request))
              = Ok generic_failure) by reflexivity.
  split; [exact H|].
  apply (failures_generic_and_logged Sample.env Sample.encode
           CommonTags.codeBlock CommonTags.oneLine
           Fixture.store_down Sample.request generic_failure H).
Defined.

Lemma every_response_content_type_witness :
  snd (run Sample.quiet_world (Sample.handler Sample.request))
  = Ok (stream_response Sample.stream)
  /\ Headers_get "Content-Type" (headers (stream_response Sample.stream))
     = Some (js "text/event-stream").
Proof.
  assert (H : snd (run Sample.quiet_world (Sample.handler Sample.request))
              = Ok (stream_response Sample.stream)) by reflexivity.
  split; [exact H|].
  apply (every_response_content_type Sample.env Sample.encode
           CommonTags.codeBlock CommonTags.oneLine
           Sample.quiet_world Sample.request (stream_response Sample.stream) H).
Defined.

(** A run of the fifth shape: the embedding call fails with a response
    object that does not serialise. *)
Example unserialisable_failure_shape :
  List.map kind_of (fst (run Fixture.embedding_cyclic (Sample.handler Sample.request)))
  = [KModeration; KEmbedding]
  /\ snd (run Fixture.embedding_cyclic (Sample.handler Sample.request)) = Throw TypeError.
Proof. split; reflexivity. Qed.
